(** * Starboard: reaction-threshold tracking and highlight-message lifecycle

    A shallow embedding of [tux/cogs/services/starboard.py]: the three
    reaction listeners of the [Starboard] cog and the two helpers they
    call, written over an explicit world (configuration store, link
    store, channel cache, messages of every channel) in a state and
    exception monad.  Python's [try]/[except Exception] blocks become
    [try_except]; an exception leaves the world as it was when it was
    raised, exactly as in Python. *)

From stdpp Require Import gmap strings list fin_maps pretty.

Open Scope Z_scope.

(** ** Data model *)

(** [discord.User] / [discord.Member], as far as the cog reads them. *)
Record User := {
  user_id : Z;
  user_bot : bool;
  user_display_name : string;
  user_avatar : option string;
}.

(** [discord.PartialEmoji], the emoji carried by a raw reaction event. *)
Record PartialEmoji := {
  emoji_name : string;
  emoji_id : option Z;
  emoji_animated : bool;
}.

(** [str(payload.emoji)]: a Unicode emoji prints as itself, a custom one
    as [<:name:id>] or [<a:name:id>]. *)
Definition PartialEmoji_str (e : PartialEmoji) : string :=
  let name := if decide (emoji_name e = "") then "_" else emoji_name e in
  match emoji_id e with
  | None => name
  | Some i =>
      (if emoji_animated e then "<a:" else "<:") +:+ name +:+ ":" +:+ pretty i +:+ ">"
  end.

(** [Reaction.emoji] is a [str] for a Unicode emoji and an emoji object
    for a custom one. *)
Inductive ReactionEmoji :=
  | EmojiStr (s : string)
  | EmojiObj (e : PartialEmoji).

(** [discord.Reaction]: [reaction_count] is the [count] field of the
    fetched message snapshot, [reaction_users] what [reaction.users()]
    yields when it is paged afterwards. *)
Record Reaction := {
  reaction_emoji : ReactionEmoji;
  reaction_count : Z;
  reaction_users : list User;
}.

(** The embed built by [EmbedCreator.create_embed] and the two updates
    the cog makes to it. *)
Record Embed := {
  embed_timestamp : Z;
  embed_author_text : string;
  embed_author_icon_url : option string;
  embed_footer_text : string;
  embed_image_url : option string;
  embed_description : option string;
  embed_fields : list (string * string);
}.

(** What the gateway stores for a message. *)
Record MessageData := {
  data_author : User;
  data_content : string;
  data_reactions : list Reaction;
  data_attachments : list string;
  data_created_at : Z;
  data_embed : option Embed;
}.

(** [discord.Message]: the data of a message together with the channel
    object it was fetched through, which gives it its guild. *)
Record Message := {
  message_id : Z;
  message_guild : option Z;
  message_channel : Z;
  message_data : MessageData;
}.

Definition message_author (m : Message) : User := data_author (message_data m).
Definition message_content (m : Message) : string := data_content (message_data m).
Definition message_reactions (m : Message) : list Reaction :=
  data_reactions (message_data m).
Definition message_attachments (m : Message) : list string :=
  data_attachments (message_data m).
Definition message_created_at (m : Message) : Z := data_created_at (message_data m).

(** [message.jump_url]. *)
Definition message_jump_url (m : Message) : string :=
  "https://discord.com/channels/"
  +:+ match message_guild m with Some g => pretty g | None => "@me" end
  +:+ "/" +:+ pretty (message_channel m) +:+ "/" +:+ pretty (message_id m).

Inductive ChannelKind := TextChannel | OtherChannel.

Record Channel := {
  channel_id : Z;
  channel_kind : ChannelKind;
  channel_guild : Z;
}.

(** The row of the configuration store. *)
Record StarboardConfig := {
  starboard_guild_id : Z;
  starboard_channel_id : Z;
  starboard_emoji : string;
  starboard_threshold : Z;
}.

(** The row of the link store, with the fields
    [create_or_update_starboard_message] passes to it. *)
Record StarboardMessage := {
  link_message_id : Z;
  link_message_content : string;
  link_message_expires_at : Z;
  link_message_channel_id : Z;
  link_message_user_id : Z;
  link_message_guild_id : Z;
  link_star_count : Z;
  link_starboard_message_id : Z;
}.

(** [discord.RawReactionActionEvent].  [payload_member] and
    [payload_message_author_id] are [Optional] in discord.py, which fills
    them for reaction-add events only. *)
Record Payload := {
  payload_guild_id : option Z;
  payload_channel_id : Z;
  payload_message_id : Z;
  payload_user_id : Z;
  payload_member : option User;
  payload_emoji : PartialEmoji;
  payload_message_author_id : option Z;
}.

#[global] Instance ChannelKind_eq_dec : EqDecision ChannelKind.
Proof. solve_decision. Defined.

(** ** Exceptions and external operations *)

(** The exceptions the cog can meet; all of them derive from
    [Exception], so [except Exception] catches each one. *)
Inductive Exn :=
  | AssertionError
  | NotFound
  | HTTPException
  | DatabaseError.

(** The external calls that may fail for reasons outside the world's
    data (network, permissions, database). *)
Inductive Op :=
  | OpGetConfig (guild : Z)
  | OpGetLink (message guild : Z)
  | OpPutLink (message guild : Z)
  | OpFetchMessage (channel message : Z)
  | OpReactionUsers (channel message : Z)
  | OpSend (channel : Z)
  | OpEdit (channel message : Z)
  | OpDelete (channel message : Z).

Inductive LogLevel := LvlDebug | LvlError.

(** What the cog does to the outside, most recent first. *)
Inductive Action :=
  | ASend (channel message : Z) (e : Embed)
  | AEdit (channel message : Z) (e : Embed)
  | ADelete (channel message : Z)
  | APutLink (l : StarboardMessage)
  | ALog (lvl : LogLevel) (site : string) (e : option Exn).

Record World := {
  configs : gmap Z StarboardConfig;
  links : gmap (Z * Z) StarboardMessage;
  channels : gmap Z Channel;
  messages : gmap (Z * Z) MessageData;
  next_id : Z;
  now : Z;
  me : User;
  faults : Op → bool;
  journal : list Action;
}.

(** ** The monad: world passing with exceptions *)

Inductive Res (A : Type) :=
  | Ok (a : A)
  | Raise (e : Exn).
Arguments Ok {A} a.
Arguments Raise {A} e.

Definition M (A : Type) : Type := World → Res A * World.

Definition ret {A} (a : A) : M A := λ w, (Ok a, w).
Definition raise {A} (e : Exn) : M A := λ w, (Raise e, w).
Definition bind {A B} (c : M A) (k : A → M B) : M B :=
  λ w, match c w with
       | (Ok a, w') => k a w'
       | (Raise e, w') => (Raise e, w')
       end.

(** [try: body except Exception as e: handler e]. *)
Definition try_except {A} (body : M A) (handler : Exn → M A) : M A :=
  λ w, match body w with
       | (Ok a, w') => (Ok a, w')
       | (Raise e, w') => handler e w'
       end.

Notation "'let*' x ':=' c 'in' k" := (bind c (λ x, k))
  (at level 10, x name, c at level 100, k at level 200).
Notation "c ';;' k" := (bind c (λ _, k))
  (at level 100, k at level 200, right associativity).

Definition gets {A} (f : World → A) : M A := λ w, (Ok (f w), w).
Definition modify (f : World → World) : M unit := λ w, (Ok tt, f w).

Definition set_messages (ms : gmap (Z * Z) MessageData) (w : World) : World :=
  {| configs := configs w; links := links w; channels := channels w;
     messages := ms; next_id := next_id w; now := now w;
     me := me w; faults := faults w; journal := journal w |}.

Definition set_links (ls : gmap (Z * Z) StarboardMessage) (w : World) : World :=
  {| configs := configs w; links := ls; channels := channels w;
     messages := messages w; next_id := next_id w; now := now w;
     me := me w; faults := faults w; journal := journal w |}.

Definition set_next_id (n : Z) (w : World) : World :=
  {| configs := configs w; links := links w; channels := channels w;
     messages := messages w; next_id := n; now := now w;
     me := me w; faults := faults w; journal := journal w |}.

Definition set_journal (j : list Action) (w : World) : World :=
  {| configs := configs w; links := links w; channels := channels w;
     messages := messages w; next_id := next_id w; now := now w;
     me := me w; faults := faults w; journal := j |}.

Definition record (a : Action) : M unit :=
  modify (λ w, set_journal (a :: journal w) w).

Definition logger_error (site : string) (e : option Exn) : M unit :=
  record (ALog LvlError site e).
Definition logger_debug (site : string) (e : option Exn) : M unit :=
  record (ALog LvlDebug site e).

(** Raise [e] when the environment makes operation [o] fail. *)
Definition may_fail (o : Op) (e : Exn) : M unit :=
  λ w, if faults w o then (Raise e, w) else (Ok tt, w).

(** ** The external collaborators *)

(** Modelled from the spec: [StarboardController.get_starboard_by_guild_id]
    of [tux.database.controllers.starboard], the Config Provider's
    [getConfig(serverId) -> StarboardConfig | null]. *)
Definition get_starboard_by_guild_id (guild : Z) : M (option StarboardConfig) :=
  may_fail (OpGetConfig guild) DatabaseError;;
  gets (λ w, configs w !! guild).

(** Modelled from the spec:
    [StarboardMessageController.get_starboard_message_by_id], the
    Message-Link Store's [getLink(originalMessageId, serverId)]. *)
Definition get_starboard_message_by_id (message guild : Z)
  : M (option StarboardMessage) :=
  may_fail (OpGetLink message guild) DatabaseError;;
  gets (λ w, links w !! (message, guild)).

(** Modelled from the spec:
    [StarboardMessageController.create_or_update_starboard_message], the
    Message-Link Store's [putLink(link)], which writes or overwrites the
    link of [(originalMessageId, serverId)]. *)
Definition put_starboard_message (l : StarboardMessage) : M unit :=
  may_fail (OpPutLink (link_message_id l) (link_message_guild_id l)) DatabaseError;;
  modify (λ w, set_links
                 (<[(link_message_id l, link_message_guild_id l) := l]> (links w)) w);;
  record (APutLink l).

(** [self.bot.get_channel(id)]: a cache lookup, [None] when unknown. *)
Definition bot_get_channel (id : Z) : M (option Channel) :=
  gets (λ w, channels w !! id).

(** [guild.get_channel(id)]: the cache restricted to one guild. *)
Definition channel_of_guild (guild id : Z) (w : World) : option Channel :=
  match channels w !! id with
  | Some c => if decide (channel_guild c = guild) then Some c else None
  | None => None
  end.

Definition guild_get_channel (guild id : Z) : M (option Channel) :=
  gets (channel_of_guild guild id).

(** [Message(channel=c, data=d)]: the message object discord.py builds
    around the guild channel a message was fetched through or sent to. *)
Definition message_in (c : Channel) (id : Z) (d : MessageData) : Message :=
  {| message_id := id; message_guild := Some (channel_guild c);
     message_channel := channel_id c; message_data := d |}.

(** [channel.fetch_message(id)]: a gateway call; an unknown message is
    [NotFound]. *)
Definition fetch_message (c : Channel) (id : Z) : M Message :=
  may_fail (OpFetchMessage (channel_id c) id) HTTPException;;
  let* found := gets (λ w, messages w !! (channel_id c, id)) in
  match found with
  | Some d => ret (message_in c id d)
  | None => raise NotFound
  end.

(** [reaction.users()]: pages the roster of one reaction. *)
Definition fetch_reaction_users (m : Message) (r : Reaction) : M (list User) :=
  may_fail (OpReactionUsers (message_channel m) (message_id m)) HTTPException;;
  ret (reaction_users r).

(** [channel.send(embed=embed)]: a new message with a fresh id. *)
Definition channel_send (c : Channel) (e : Embed) : M Message :=
  may_fail (OpSend (channel_id c)) HTTPException;;
  let* id := gets next_id in
  let* author := gets me in
  let* t := gets now in
  let d := {| data_author := author; data_content := "";
              data_reactions := []; data_attachments := [];
              data_created_at := t; data_embed := Some e |} in
  modify (λ w, set_next_id (id + 1)
                 (set_messages (<[(channel_id c, id) := d]> (messages w)) w));;
  record (ASend (channel_id c) id e);;
  ret (message_in c id d).

Definition with_embed (e : Embed) (d : MessageData) : MessageData :=
  {| data_author := data_author d; data_content := data_content d;
     data_reactions := data_reactions d;
     data_attachments := data_attachments d;
     data_created_at := data_created_at d; data_embed := Some e |}.

(** [message.edit(embed=embed)]: [NotFound] when the message is gone. *)
Definition message_edit (m : Message) (e : Embed) : M unit :=
  let key := (message_channel m, message_id m) in
  may_fail (OpEdit (message_channel m) (message_id m)) HTTPException;;
  let* found := gets (λ w, messages w !! key) in
  match found with
  | Some cur =>
      modify (λ w, set_messages (<[key := with_embed e cur]> (messages w)) w);;
      record (AEdit (message_channel m) (message_id m) e)
  | None => raise NotFound
  end.

(** [message.delete()]: [NotFound] when the message is gone. *)
Definition message_delete (m : Message) : M unit :=
  let key := (message_channel m, message_id m) in
  may_fail (OpDelete (message_channel m) (message_id m)) HTTPException;;
  let* found := gets (λ w, messages w !! key) in
  match found with
  | Some _ =>
      modify (λ w, set_messages (delete key (messages w)) w);;
      record (ADelete (message_channel m) (message_id m))
  | None => raise NotFound
  end.

(** [discord.utils.get(reactions, emoji=e)]: the first reaction whose
    [emoji] attribute equals the string [e]; an emoji object never
    equals a string. *)
Fixpoint utils_get_emoji (rs : list Reaction) (e : string) : option Reaction :=
  match rs with
  | [] => None
  | r :: rs' =>
      match reaction_emoji r with
      | EmojiStr s => if decide (s = e) then Some r else utils_get_emoji rs' e
      | EmojiObj _ => utils_get_emoji rs' e
      end
  end.

(** ** The cog *)

Definition site_fetch : string := "Error while fetching starboard message".
Definition site_no_guild : string := "Original message has no guild".
Definition site_upsert : string :=
  "Error while creating or updating starboard message".
Definition site_add : string := "Unexpected error in starboard_check".
Definition site_remove : string :=
  "Unexpected error in starboard_on_reaction_remove".
Definition site_clear : string := "Error in starboard_on_reaction_clear".

(** [Starboard.get_existing_starboard_message]. *)
Definition get_existing_starboard_message
    (starboard_channel : Channel) (original_message : Message)
  : M (option Message) :=
  match message_guild original_message with
  | None => raise AssertionError
  | Some guild =>
      try_except
        (let* starboard_message :=
           get_starboard_message_by_id (message_id original_message) guild in
         match starboard_message with
         | Some l =>
             let* h := fetch_message starboard_channel
                         (link_starboard_message_id l) in
             ret (Some h)
         | None => ret None
         end)
        (λ e, logger_error site_fetch (Some e);; ret None)
  end.

(** The embed of a highlight message, lines 223-236. *)
Definition starboard_embed (starboard : StarboardConfig)
    (original_message : Message) (reaction_count : Z) : Embed :=
  {| embed_timestamp := message_created_at original_message;
     embed_author_text := user_display_name (message_author original_message);
     embed_author_icon_url := user_avatar (message_author original_message);
     embed_footer_text :=
       pretty reaction_count +:+ " " +:+ starboard_emoji starboard;
     embed_image_url := head (message_attachments original_message);
     embed_description :=
       if decide (message_content original_message = "") then None
       else Some (message_content original_message);
     embed_fields :=
       [("Source",
         "[Jump to message](" +:+ message_jump_url original_message +:+ ")")] |}.

Definition thirty_days : Z := 30 * 86400.

(** [Starboard.create_or_update_starboard_message]. *)
Definition create_or_update_starboard_message
    (starboard_channel : Channel) (original_message : Message)
    (reaction_count : Z) : M unit :=
  match message_guild original_message with
  | None => logger_error site_no_guild None
  | Some guild =>
      try_except
        (let* starboard := get_starboard_by_guild_id guild in
         match starboard with
         | None => ret tt
         | Some starboard =>
             let embed := starboard_embed starboard original_message reaction_count in
             let* existing :=
               get_existing_starboard_message starboard_channel original_message in
             let* starboard_message :=
               match existing with
               | Some h => message_edit h embed;; ret h
               | None => channel_send starboard_channel embed
               end in
             let* t := gets now in
             put_starboard_message
               {| link_message_id := message_id original_message;
                  link_message_content := message_content original_message;
                  link_message_expires_at := t + thirty_days;
                  link_message_channel_id := message_channel original_message;
                  link_message_user_id := user_id (message_author original_message);
                  link_message_guild_id := guild;
                  link_star_count := reaction_count;
                  link_starboard_message_id := message_id starboard_message |}
         end)
        (λ e, logger_error site_upsert (Some e))
  end.

(** Python truthiness of an [Optional[int]]: [None] and [0] are falsy. *)
Definition truthy_id (o : option Z) : option Z :=
  match o with
  | Some i => if decide (i = 0) then None else Some i
  | None => None
  end.

(** [isinstance(channel, discord.TextChannel)] on the result of a
    [get_channel]. *)
Definition as_text_channel (c : option Channel) : option Channel :=
  match c with
  | Some c => if decide (channel_kind c = TextChannel) then Some c else None
  | None => None
  end.

(** Lines 275-281 and 309-315, the same block in both listeners: the
    count of the trigger reaction in the fetched message, less one for
    every user of its roster whose id is the event's
    [message_author_id]. *)
Definition count_reactions (payload : Payload) (starboard : StarboardConfig)
    (message : Message) : M Z :=
  match utils_get_emoji (message_reactions message) (starboard_emoji starboard) with
  | None => ret 0
  | Some reaction =>
      let* users := fetch_reaction_users message reaction in
      ret (foldl (λ count user,
                    if decide (Some (user_id user) = payload_message_author_id payload)
                    then count - 1 else count)
                 (reaction_count reaction) users)
  end.

(** The [try] block of [starboard_on_reaction_add], lines 273-288. *)
Definition reaction_add_try (payload : Payload) (starboard : StarboardConfig)
    (channel : Channel) : M unit :=
  let* message := fetch_message channel (payload_message_id payload) in
  let* count := count_reactions payload starboard message in
  if decide (starboard_threshold starboard ≤ count) then
    let* starboard_channel :=
      guild_get_channel (channel_guild channel) (starboard_channel_id starboard) in
    match as_text_channel starboard_channel with
    | None => ret tt
    | Some starboard_channel =>
        create_or_update_starboard_message starboard_channel message count
    end
  else ret tt.

(** [Starboard.starboard_on_reaction_add]. *)
Definition starboard_on_reaction_add (payload : Payload) : M unit :=
  match truthy_id (payload_guild_id payload), payload_member payload with
  | Some guild_id, Some member =>
      if user_bot member then ret tt else
      let* starboard := get_starboard_by_guild_id guild_id in
      match starboard with
      | None => ret tt
      | Some starboard =>
          if decide (PartialEmoji_str (payload_emoji payload) = starboard_emoji starboard)
          then
            let* channel := bot_get_channel (payload_channel_id payload) in
            match as_text_channel channel with
            | None => raise AssertionError
            | Some channel =>
                try_except (reaction_add_try payload starboard channel)
                  (λ e, logger_debug site_add (Some e))
            end
          else ret tt
      end
  | _, _ => ret tt
  end.

(** The [try] block of [starboard_on_reaction_remove], lines 307-326. *)
Definition reaction_remove_try (payload : Payload) (starboard : StarboardConfig)
    (channel : Channel) : M unit :=
  let* message := fetch_message channel (payload_message_id payload) in
  let* count := count_reactions payload starboard message in
  let* starboard_channel :=
    guild_get_channel (channel_guild channel) (starboard_channel_id starboard) in
  match as_text_channel starboard_channel with
  | None => ret tt
  | Some starboard_channel =>
      if decide (count < starboard_threshold starboard) then
        let* existing :=
          get_existing_starboard_message starboard_channel message in
        match existing with
        | Some h => message_delete h
        | None => ret tt
        end
      else
        create_or_update_starboard_message starboard_channel message count
  end.

(** [Starboard.starboard_on_reaction_remove]. *)
Definition starboard_on_reaction_remove (payload : Payload) : M unit :=
  match truthy_id (payload_guild_id payload) with
  | None => ret tt
  | Some guild_id =>
      let* starboard := get_starboard_by_guild_id guild_id in
      match starboard with
      | None => ret tt
      | Some starboard =>
          if decide (PartialEmoji_str (payload_emoji payload) = starboard_emoji starboard)
          then
            let* channel := bot_get_channel (payload_channel_id payload) in
            match as_text_channel channel with
            | None => raise AssertionError
            | Some channel =>
                try_except (reaction_remove_try payload starboard channel)
                  (λ e, logger_debug site_remove (Some e))
            end
          else ret tt
      end
  end.

(** The [try] block of [starboard_on_reaction_clear], lines 338-355. *)
Definition reaction_clear_try (payload : Payload) (guild_id : Z) : M unit :=
  let* channel := bot_get_channel (payload_channel_id payload) in
  match as_text_channel channel with
  | None => raise AssertionError
  | Some channel =>
      let* message := fetch_message channel (payload_message_id payload) in
      let* starboard := get_starboard_by_guild_id guild_id in
      match starboard with
      | None => ret tt
      | Some starboard =>
          let* starboard_channel :=
            guild_get_channel (channel_guild channel)
              (starboard_channel_id starboard) in
          match as_text_channel starboard_channel with
          | None => ret tt
          | Some starboard_channel =>
              let* existing :=
                get_existing_starboard_message starboard_channel message in
              match existing with
              | Some h => message_delete h
              | None => ret tt
              end
          end
      end
  end.

(** [Starboard.starboard_on_reaction_clear]. *)
Definition starboard_on_reaction_clear (payload : Payload) : M unit :=
  match truthy_id (payload_guild_id payload) with
  | None => ret tt
  | Some guild_id =>
      try_except (reaction_clear_try payload guild_id)
        (λ e, logger_error site_clear (Some e))
  end.

(** ** The Reaction Counter as the specification words it *)

(** Section 4.1 of the specification: the number of distinct users on the
    roster of the trigger emoji, less one when the author of the message
    is among them, and at least 0. *)
Definition qualifying_count_spec (m : Message) (emoji : string) : Z :=
  match utils_get_emoji (message_reactions m) emoji with
  | None => 0
  | Some r =>
      let reactors := remove_dups (user_id <$> reaction_users r) in
      let raw := Z.of_nat (length reactors) in
      let raw_adjusted :=
        if decide (user_id (message_author m) ∈ reactors) then raw - 1 else raw in
      Z.max raw_adjusted 0
  end.

(** The journal entries that are sends. *)
Definition sends (j : list Action) : list (Z * Z) :=
  omap (λ a, match a with ASend c i _ => Some (c, i) | _ => None end) j.

Definition logged (lvl : LogLevel) (site : string) (e : option Exn) (w : World)
  : World :=
  set_journal (ALog lvl site e :: journal w) w.

Definition no_faults (w : World) : Prop := ∀ o, faults w o = false.

(** ** Worlds after a successful external call *)

Definition sent_data (e : Embed) (w : World) : MessageData :=
  {| data_author := me w; data_content := "";
     data_reactions := []; data_attachments := [];
     data_created_at := now w; data_embed := Some e |}.

Definition after_send (c : Channel) (e : Embed) (w : World) : World :=
  set_journal (ASend (channel_id c) (next_id w) e :: journal w)
    (set_next_id (next_id w + 1)
       (set_messages (<[(channel_id c, next_id w) := sent_data e w]> (messages w)) w)).

Definition after_edit (h : Message) (e : Embed) (w : World) : World :=
  set_journal (AEdit (message_channel h) (message_id h) e :: journal w)
    (set_messages
       (<[(message_channel h, message_id h) := with_embed e (message_data h)]>
          (messages w)) w).

Definition after_delete (h : Message) (w : World) : World :=
  set_journal (ADelete (message_channel h) (message_id h) :: journal w)
    (set_messages (delete (message_channel h, message_id h) (messages w)) w).

Definition after_put (l : StarboardMessage) (w : World) : World :=
  set_journal (APutLink l :: journal w)
    (set_links (<[(link_message_id l, link_message_guild_id l) := l]> (links w)) w).

(** The link [create_or_update_starboard_message] writes. *)
Definition new_link (m : Message) (g n h : Z) (w : World) : StarboardMessage :=
  {| link_message_id := message_id m;
     link_message_content := message_content m;
     link_message_expires_at := now w + thirty_days;
     link_message_channel_id := message_channel m;
     link_message_user_id := user_id (message_author m);
     link_message_guild_id := g;
     link_star_count := n;
     link_starboard_message_id := h |}.

(** ** The situations the listeners meet *)

(** The event comes from a configured server whose store answers, it
    carries the configured emoji, and its channel is a text channel:
    the listener reaches its [try] block. *)
Definition past_guards (p : Payload) (g : Z) (sb : StarboardConfig)
    (c : Channel) (w : World) : Prop :=
  truthy_id (payload_guild_id p) = Some g
  ∧ faults w (OpGetConfig g) = false
  ∧ configs w !! g = Some sb
  ∧ PartialEmoji_str (payload_emoji p) = starboard_emoji sb
  ∧ as_text_channel (channels w !! payload_channel_id p) = Some c.

(** The message and its roster were fetched; [n] is the count the
    listener compares with the threshold. *)
Definition counted (p : Payload) (sb : StarboardConfig) (c : Channel)
    (w : World) (m : Message) (n : Z) : Prop :=
  fetch_message c (payload_message_id p) w = (Ok m, w)
  ∧ count_reactions p sb m w = (Ok n, w).

(** The configured highlight channel resolves to the text channel [sc]
    of the guild. *)
Definition board (sb : StarboardConfig) (c : Channel) (w : World)
    (sc : Channel) : Prop :=
  as_text_channel
    (channel_of_guild (channel_guild c) (starboard_channel_id sb) w) = Some sc.

(** The reacting principal is a member that is not a bot. *)
Definition human_member (p : Payload) : Prop :=
  ∃ member, payload_member p = Some member ∧ user_bot member = false.

(** The Linked state of section 4.2: the store holds the link [l] of
    the message and the highlight message it names is in [sc]. *)
Definition linked_live (sc : Channel) (m : Message) (w : World)
    (l : StarboardMessage) (d : MessageData) : Prop :=
  ∃ g, message_guild m = Some g
       ∧ links w !! (message_id m, g) = Some l
       ∧ messages w !! (channel_id sc, link_starboard_message_id l) = Some d.

(** The link is in the store but the highlight message it names is gone. *)
Definition linked_stale (sc : Channel) (m : Message) (w : World)
    (l : StarboardMessage) : Prop :=
  ∃ g, message_guild m = Some g
       ∧ links w !! (message_id m, g) = Some l
       ∧ messages w !! (channel_id sc, link_starboard_message_id l) = None.

(** The event carries a member that is a bot. *)
Definition from_bot (p : Payload) : Prop :=
  ∃ member, payload_member p = Some member ∧ user_bot member = true.

(** The event has a server id, the configuration store answers, and
    either the server has no configuration or the emoji of the event is
    not the configured one. *)
Definition not_for_starboard (p : Payload) (w : World) : Prop :=
  ∃ g, truthy_id (payload_guild_id p) = Some g
       ∧ faults w (OpGetConfig g) = false
       ∧ match configs w !! g with
         | None => True
         | Some sb => PartialEmoji_str (payload_emoji p) ≠ starboard_emoji sb
         end.

Definition with_member (member : option User) (p : Payload) : Payload :=
  {| payload_guild_id := payload_guild_id p;
     payload_channel_id := payload_channel_id p;
     payload_message_id := payload_message_id p;
     payload_user_id := payload_user_id p;
     payload_member := member;
     payload_emoji := payload_emoji p;
     payload_message_author_id := payload_message_author_id p |}.

(** The fetch of the message of the event, or the paging of its roster,
    raises [e]. *)
Definition fetch_fails (p : Payload) (sb : StarboardConfig) (c : Channel)
    (w : World) (e : Exn) : Prop :=
  fetch_message c (payload_message_id p) w = (Raise e, w)
  ∨ ∃ m, fetch_message c (payload_message_id p) w = (Ok m, w)
         ∧ count_reactions p sb m w = (Raise e, w).

(** The snapshot of a reaction agrees with its roster: every user once,
    and as many users as the count says. *)
Definition consistent (r : Reaction) : Prop :=
  NoDup (user_id <$> reaction_users r)
  ∧ reaction_count r = Z.of_nat (length (reaction_users r)).

(** ** A concrete server *)

Module Scenario.
Definition star : string := "⭐".

Definition person (id : Z) (name : string) : User :=
  {| user_id := id; user_bot := false; user_display_name := name;
     user_avatar := None |}.
Definition alice : User := person 7 "alice".
Definition bob : User := person 8 "bob".
Definition carol : User := person 9 "carol".
Definition dave : User := person 11 "dave".
Definition robot : User :=
  {| user_id := 99; user_bot := true; user_display_name := "robot";
     user_avatar := None |}.
Definition tux : User :=
  {| user_id := 1000; user_bot := true; user_display_name := "tux";
     user_avatar := None |}.

Definition general : Channel :=
  {| channel_id := 10; channel_kind := TextChannel; channel_guild := 1 |}.
Definition highlights : Channel :=
  {| channel_id := 20; channel_kind := TextChannel; channel_guild := 1 |}.
Definition thread : Channel :=
  {| channel_id := 30; channel_kind := OtherChannel; channel_guild := 1 |}.

Definition config : StarboardConfig :=
  {| starboard_guild_id := 1; starboard_channel_id := 20;
     starboard_emoji := star; starboard_threshold := 3 |}.

Definition star_emoji : PartialEmoji :=
  {| emoji_name := star; emoji_id := None; emoji_animated := false |}.

(** A message of alice in #general with the given star roster. *)
Definition starred (roster : list User) : MessageData :=
  {| data_author := alice; data_content := "hello";
     data_reactions :=
       [ {| reaction_emoji := EmojiStr star;
            reaction_count := Z.of_nat (length roster);
            reaction_users := roster |} ];
     data_attachments := []; data_created_at := 100; data_embed := None |}.

Definition healthy : Op → bool := λ _, false.
Definition roster_down : Op → bool :=
  λ o, match o with OpReactionUsers _ _ => true | _ => false end.
Definition config_down : Op → bool :=
  λ o, match o with OpGetConfig _ => true | _ => false end.
Definition links_down : Op → bool :=
  λ o, match o with OpGetLink _ _ | OpPutLink _ _ => true | _ => false end.

(** The same message after its reactions were cleared. *)
Definition bare : MessageData :=
  {| data_author := alice; data_content := "hello"; data_reactions := [];
     data_attachments := []; data_created_at := 100; data_embed := None |}.

(** Message 100 as the listeners fetch it from #general. *)
Definition original (d : MessageData) : Message := message_in general 100 d.

Definition cache : gmap Z Channel :=
  {[ 10 := general; 20 := highlights; 30 := thread ]}.

(** Message 100 is not on the starboard. *)
Definition unlinked (d : MessageData) (flt : Op → bool) : World :=
  {| configs := {[ 1 := config ]}; links := ∅; channels := cache;
     messages := {[ (10, 100) := d ]};
     next_id := 500; now := 1000; me := tux;
     faults := flt; journal := [] |}.

Definition highlight (d : MessageData) : MessageData :=
  sent_data (starboard_embed config (original d) 3)
    (unlinked d healthy).

Definition link (d : MessageData) : StarboardMessage :=
  new_link (original d) 1 3 400 (unlinked d healthy).

(** Message 100 is on the starboard as message 400 of #highlights. *)
Definition linked (d : MessageData) (flt : Op → bool) : World :=
  {| configs := {[ 1 := config ]};
     links := {[ (100, 1) := link d ]}; channels := cache;
     messages := {[ (10, 100) := d; (20, 400) := highlight d ]};
     next_id := 500; now := 1000; me := tux;
     faults := flt; journal := [] |}.

(** The link is there, the highlight message was deleted by hand. *)
Definition stale (d : MessageData) (flt : Op → bool) : World :=
  {| configs := {[ 1 := config ]};
     links := {[ (100, 1) := link d ]}; channels := cache;
     messages := {[ (10, 100) := d ]};
     next_id := 500; now := 1000; me := tux;
     faults := flt; journal := [] |}.

(** A reaction-add event as the gateway delivers it: the member and
    the id of the author of the message come with it. *)
Definition added (by_user : User) (channel : Z) : Payload :=
  {| payload_guild_id := Some 1; payload_channel_id := channel;
     payload_message_id := 100; payload_user_id := user_id by_user;
     payload_member := Some by_user; payload_emoji := star_emoji;
     payload_message_author_id := Some 7 |}.

(** A reaction-remove event: neither the member nor the author id. *)
Definition removed (by_user : User) (channel : Z) : Payload :=
  {| payload_guild_id := Some 1; payload_channel_id := channel;
     payload_message_id := 100; payload_user_id := user_id by_user;
     payload_member := None; payload_emoji := star_emoji;
     payload_message_author_id := None |}.
End Scenario.


(** ** What a call may change *)

(** Every run of [c] takes a world to one related to it by [R]. *)
Definition respects {A} (R : relation World) (c : M A) : Prop :=
  ∀ w r w', c w = (r, w') → R w w'.

(** The run leaves the world as it was. *)
Definition untouched : relation World := λ w w', w' = w.

(** The configuration store, the channel cache, the clock, the bot's own
    user and the environment are as before. *)
Definition same_setting : relation World :=
  λ w w', configs w' = configs w ∧ channels w' = channels w
          ∧ now w' = now w ∧ me w' = me w ∧ faults w' = faults w.

(** No message disappeared. *)
Definition keeps_messages : relation World :=
  λ w w', ∀ k, is_Some (messages w !! k) → is_Some (messages w' !! k).

(** No row of the link store disappeared. *)
Definition keeps_links : relation World :=
  λ w w', ∀ k, is_Some (links w !! k) → is_Some (links w' !! k).

(** Nothing was sent, edited or written: the messages that are left are
    the old ones, unchanged, and the link store is as before. *)
Definition only_removes : relation World :=
  λ w w', messages w' ⊆ messages w ∧ links w' = links w
          ∧ next_id w' = next_id w.

(** Only the link of [k] may differ. *)
Definition links_outside (k : Z * Z) : relation World :=
  λ w w', ∀ k', k' ≠ k → links w' !! k' = links w !! k'.

(** Only messages of channel [c] may differ. *)
Definition messages_outside (c : Z) : relation World :=
  λ w w', ∀ c' i, c' ≠ c → messages w' !! (c', i) = messages w !! (c', i).

(** What a relation on worlds lets the gateway and the stores do. *)
Definition allows_log (R : relation World) : Prop :=
  ∀ a w, R w (set_journal (a :: journal w) w).
Definition allows_send (R : relation World) (c : Channel) : Prop :=
  ∀ d w, R w (set_next_id (next_id w + 1)
                (set_messages (<[(channel_id c, next_id w) := d]> (messages w)) w)).
Definition allows_edit (R : relation World) (c : Z) : Prop :=
  ∀ i d w, is_Some (messages w !! (c, i)) →
           R w (set_messages (<[(c, i) := d]> (messages w)) w).
Definition allows_delete (R : relation World) : Prop :=
  ∀ k w, R w (set_messages (delete k (messages w)) w).
Definition allows_put (R : relation World) (k : Z * Z) : Prop :=
  ∀ l w, R w (set_links (<[k := l]> (links w)) w).

(** The exceptions a run may end with. *)
Definition raises_within {A} (E : Exn → Prop) (c : M A) : Prop :=
  ∀ w e w', c w = (Raise e, w') → E e.

(** ** The admin commands *)

(** Python's [len] of a [str], the strings of this file being UTF-8:
    the bytes that do not continue a code point. *)
Definition continues_code_point (a : Ascii.ascii) : bool :=
  let n := Ascii.N_of_ascii a in ((128 <=? n) && (n <? 192))%N.

Fixpoint py_len (s : string) : nat :=
  match s with
  | EmptyString => 0%nat
  | String a s' =>
      ((if continues_code_point a then 0 else 1) + py_len s')%nat
  end.

(** What [ctx.send] shows to the invoker. *)
Inductive Reply :=
  | ErrorEmbed (title description : string)
  | InfoEmbed (title description : string) (fields : list (string * string))
  | ErrorText (text : string) (e : Exn).

Inductive AdminOp :=
  | OpSetConfig (guild : Z)
  | OpDeleteConfig (guild : Z)
  | OpReply (r : Reply).

(** The world of a command: the cog's world, what the invoker was told
    (most recent first), where the bot may send, and which of the
    command's own external calls fail. *)
Record Desk := {
  desk_world : World;
  desk_replies : list Reply;
  desk_can_send : Z → bool;
  desk_faults : AdminOp → bool;
}.

(** [commands.Context], as far as the commands read it. *)
Record Context := {
  ctx_guild : option Z;
  ctx_author : User;
}.

Definition Cmd (A : Type) : Type := Desk → Res A * Desk.

Definition cmd_ret {A} (a : A) : Cmd A := λ s, (Ok a, s).
Definition cmd_raise {A} (e : Exn) : Cmd A := λ s, (Raise e, s).
Definition cmd_bind {A B} (c : Cmd A) (k : A → Cmd B) : Cmd B :=
  λ s, match c s with
       | (Ok a, s') => k a s'
       | (Raise e, s') => (Raise e, s')
       end.
Definition cmd_try {A} (body : Cmd A) (handler : Exn → Cmd A) : Cmd A :=
  λ s, match body s with
       | (Ok a, s') => (Ok a, s')
       | (Raise e, s') => handler e s'
       end.

Definition set_world (w : World) (s : Desk) : Desk :=
  {| desk_world := w; desk_replies := desk_replies s;
     desk_can_send := desk_can_send s; desk_faults := desk_faults s |}.

Definition set_configs (cs : gmap Z StarboardConfig) (w : World) : World :=
  {| configs := cs; links := links w; channels := channels w;
     messages := messages w; next_id := next_id w; now := now w;
     me := me w; faults := faults w; journal := journal w |}.

(** A call of the cog's own monad made from a command. *)
Definition on_world {A} (c : M A) : Cmd A :=
  λ s, let (r, w') := c (desk_world s) in (r, set_world w' s).

Definition cmd_may_fail (o : AdminOp) (e : Exn) : Cmd unit :=
  λ s, if desk_faults s o then (Raise e, s) else (Ok tt, s).

(** [ctx.send(...)]. *)
Definition ctx_send (r : Reply) : Cmd unit :=
  cmd_bind (cmd_may_fail (OpReply r) HTTPException)
    (λ _ s, (Ok tt,
             {| desk_world := desk_world s; desk_replies := r :: desk_replies s;
                desk_can_send := desk_can_send s; desk_faults := desk_faults s |})).

(** Modelled from the spec: [StarboardController.create_or_update_starboard]
    of [tux.database.controllers.starboard], the Config Provider's
    [setConfig(serverId, channelId, emoji, threshold)], which writes or
    replaces the configuration of the server. *)
Definition create_or_update_starboard (guild channel : Z) (emoji : string)
    (threshold : Z) : Cmd unit :=
  cmd_bind (cmd_may_fail (OpSetConfig guild) DatabaseError)
    (λ _ s, (Ok tt,
             set_world
               (set_configs
                  (<[guild := {| starboard_guild_id := guild;
                                 starboard_channel_id := channel;
                                 starboard_emoji := emoji;
                                 starboard_threshold := threshold |}]>
                     (configs (desk_world s)))
                  (desk_world s)) s)).

(** Modelled from the spec: [StarboardController.delete_starboard_by_guild_id],
    the Config Provider's [removeConfig(serverId) -> bool], true if a
    configuration existed. *)
Definition delete_starboard_by_guild_id (guild : Z) : Cmd bool :=
  cmd_bind (cmd_may_fail (OpDeleteConfig guild) DatabaseError)
    (λ _ s, (Ok (bool_decide (is_Some (configs (desk_world s) !! guild))),
             set_world
               (set_configs (delete guild (configs (desk_world s))) (desk_world s))
               s)).

Definition site_setup : string := "Error configuring starboard".
Definition site_unsetup : string := "Error removing starboard configuration".

(** [channel.mention]. *)
Definition channel_mention (c : Channel) : string :=
  "<#" +:+ pretty (channel_id c) +:+ ">".

Definition invalid_emoji : Reply :=
  ErrorEmbed "Invalid Emoji" "Please use a single default Discord emoji.".
Definition invalid_threshold : Reply :=
  ErrorEmbed "Invalid Threshold" "Threshold must be at least 1.".
Definition permission_denied (c : Channel) : Reply :=
  ErrorEmbed "Permission Denied"
    ("I don't have permission to send messages in " +:+ channel_mention c +:+ ".").
Definition starboard_setup (c : Channel) (emoji : string) (threshold : Z) : Reply :=
  InfoEmbed "Starboard Setup" "Starboard configured successfully."
    [("Channel", channel_mention c); ("Emoji", emoji);
     ("Threshold", pretty threshold)].
Definition setup_failed (e : Exn) : Reply :=
  ErrorText "An error occurred while configuring the starboard" e.
Definition starboard_removed : Reply :=
  InfoEmbed "Starboard Removed" "Starboard configuration removed successfully." [].
Definition no_starboard_found : Reply :=
  ErrorEmbed "No Starboard Found"
    "No starboard configuration found for this server.".
Definition removal_failed (e : Exn) : Reply :=
  ErrorText "An error occurred while removing the starboard configuration" e.

Section Admin.
(** [str.isprintable] reads the Unicode database; the commands are
    modelled for any such predicate. *)
Variable isprintable : string → bool.

(** [Starboard.setup_starboard], behind its decorators. *)
Definition setup_starboard (ctx : Context) (channel : Channel) (emoji : string)
    (threshold : Z) : Cmd unit :=
  match ctx_guild ctx with
  | None => cmd_raise AssertionError
  | Some guild =>
      if bool_decide (py_len emoji ≠ 1%nat) || negb (isprintable emoji) then
        ctx_send invalid_emoji
      else if bool_decide (threshold < 1) then
        ctx_send invalid_threshold
      else
        cmd_bind (λ s, (Ok (desk_can_send s (channel_id channel)), s))
          (λ send_messages,
             if negb send_messages then ctx_send (permission_denied channel)
             else
               cmd_try
                 (cmd_bind
                    (create_or_update_starboard guild (channel_id channel)
                       emoji threshold)
                    (λ _, ctx_send (starboard_setup channel emoji threshold)))
                 (λ e, cmd_bind (on_world (logger_error site_setup (Some e)))
                         (λ _, ctx_send (setup_failed e))))
  end.
End Admin.

(** [Starboard.remove_starboard], behind its decorators. *)
Definition remove_starboard (ctx : Context) : Cmd unit :=
  match ctx_guild ctx with
  | None => cmd_raise AssertionError
  | Some guild =>
      cmd_try
        (cmd_bind (delete_starboard_by_guild_id guild)
           (λ result,
              ctx_send (if result then starboard_removed else no_starboard_found)))
        (λ e, cmd_bind (on_world (logger_error site_unsetup (Some e)))
                (λ _, ctx_send (removal_failed e)))
  end.

(** The configuration [setup_starboard] writes for its arguments. *)
Definition configuration_of (g : Z) (channel : Channel) (emoji : string)
    (threshold : Z) : StarboardConfig :=
  {| starboard_guild_id := g; starboard_channel_id := channel_id channel;
     starboard_emoji := emoji; starboard_threshold := threshold |}.

(** What [setup_starboard] lets into the store. *)
Definition accepted (isprintable : string → bool) (sb : StarboardConfig) : Prop :=
  py_len (starboard_emoji sb) = 1%nat
  ∧ isprintable (starboard_emoji sb) = true
  ∧ 1 ≤ starboard_threshold sb.

(** Every configuration of the store sits under its own server and is
    one [setup_starboard] accepts. *)
Definition well_configured (isprintable : string → bool) (w : World) : Prop :=
  ∀ g sb, configs w !! g = Some sb →
          starboard_guild_id sb = g ∧ accepted isprintable sb.

(** A desk around a world where the bot may send everywhere and the
    commands' calls succeed. *)
Definition desk (w : World) : Desk :=
  {| desk_world := w; desk_replies := [];
     desk_can_send := λ _, true; desk_faults := λ _, false |}.

(** ** More of the concrete server *)

Module Office.
(** A stand-in for [str.isprintable] that knows the star. *)
Definition knows_star (s : string) : bool := bool_decide (s = Scenario.star).

(** An admin of server 1 invoking a command. *)
Definition admin : Context :=
  {| ctx_guild := Some 1; ctx_author := Scenario.alice |}.

(** A custom emoji of the server. *)
Definition penguin : PartialEmoji :=
  {| emoji_name := "penguin"; emoji_id := Some 77; emoji_animated := false |}.

Definition send_down : Op → bool :=
  λ o, match o with OpSend _ => true | _ => false end.
Definition put_down : Op → bool :=
  λ o, match o with OpPutLink _ _ => true | _ => false end.

(** The store of configurations cannot be written. *)
Definition store_down (w : World) : Desk :=
  {| desk_world := w; desk_replies := [];
     desk_can_send := λ _, true;
     desk_faults := λ o, match o with OpSetConfig _ => true | _ => false end |}.

(** Message 100 is linked and its highlight message is live, but the
    configuration of the server was removed since. *)
Definition orphaned (d : MessageData) (flt : Op → bool) : World :=
  {| configs := ∅;
     links := {[ (100, 1) := Scenario.link d ]}; channels := Scenario.cache;
     messages := {[ (10, 100) := d; (20, 400) := Scenario.highlight d ]};
     next_id := 500; now := 1000; me := Scenario.tux;
     faults := flt; journal := [] |}.

(** A message that came without a guild. *)
Definition direct_message : Message :=
  {| message_id := 100; message_guild := None; message_channel := 10;
     message_data := Scenario.bare |}.

(** A text channel of server 2, which has no starboard. *)
Definition elsewhere : Channel :=
  {| channel_id := 40; channel_kind := TextChannel; channel_guild := 2 |}.
End Office.

(** ** Running the monad *)

Lemma may_fail_ok o e w : faults w o = false → may_fail o e w = (Ok tt, w).
Proof. intros H. unfold may_fail. by rewrite H. Qed.

Lemma may_fail_raise o e w : faults w o = true → may_fail o e w = (Raise e, w).
Proof. intros H. unfold may_fail. by rewrite H. Qed.

Lemma bind_ok {A B} (c : M A) (k : A → M B) w a w' :
  c w = (Ok a, w') → bind c k w = k a w'.
Proof. intros H. unfold bind. by rewrite H. Qed.

Lemma bind_raise {A B} (c : M A) (k : A → M B) w e w' :
  c w = (Raise e, w') → bind c k w = (Raise e, w').
Proof. intros H. unfold bind. by rewrite H. Qed.

Lemma try_except_ok {A} (c : M A) h w a w' :
  c w = (Ok a, w') → try_except c h w = (Ok a, w').
Proof. intros H. unfold try_except. by rewrite H. Qed.

Lemma try_except_raise {A} (c : M A) h w e w' :
  c w = (Raise e, w') → try_except c h w = h e w'.
Proof. intros H. unfold try_except. by rewrite H. Qed.

(** ** [get_existing_starboard_message] *)

Section Existing.
Variables (sc : Channel) (m : Message) (g : Z) (w : World).
Hypothesis Hguild : message_guild m = Some g.

Lemma existing_store_down :
  faults w (OpGetLink (message_id m) g) = true →
  get_existing_starboard_message sc m w
  = (Ok None, logged LvlError site_fetch (Some DatabaseError) w).
Proof.
  intros Hf. unfold get_existing_starboard_message. rewrite Hguild.
  unfold try_except, get_starboard_message_by_id, bind.
  by rewrite (may_fail_raise _ _ _ Hf).
Qed.

Lemma existing_unlinked :
  faults w (OpGetLink (message_id m) g) = false →
  links w !! (message_id m, g) = None →
  get_existing_starboard_message sc m w = (Ok None, w).
Proof.
  intros Hf Hl. unfold get_existing_starboard_message. rewrite Hguild.
  unfold try_except, get_starboard_message_by_id, bind, gets.
  rewrite (may_fail_ok _ _ _ Hf). by rewrite Hl.
Qed.

Lemma existing_fetch_fails l e :
  faults w (OpGetLink (message_id m) g) = false →
  links w !! (message_id m, g) = Some l →
  fetch_message sc (link_starboard_message_id l) w = (Raise e, w) →
  get_existing_starboard_message sc m w
  = (Ok None, logged LvlError site_fetch (Some e) w).
Proof.
  intros Hf Hl Hfetch. unfold get_existing_starboard_message. rewrite Hguild.
  unfold try_except, get_starboard_message_by_id, bind, gets.
  rewrite (may_fail_ok _ _ _ Hf), Hl. by rewrite Hfetch.
Qed.

Lemma existing_live l h :
  faults w (OpGetLink (message_id m) g) = false →
  links w !! (message_id m, g) = Some l →
  fetch_message sc (link_starboard_message_id l) w = (Ok h, w) →
  get_existing_starboard_message sc m w = (Ok (Some h), w).
Proof.
  intros Hf Hl Hfetch. unfold get_existing_starboard_message. rewrite Hguild.
  unfold try_except, get_starboard_message_by_id, bind, gets.
  rewrite (may_fail_ok _ _ _ Hf), Hl. by rewrite Hfetch.
Qed.
End Existing.

(** A fetch reads the world and leaves it as it is. *)
Lemma fetch_message_found c i d w :
  faults w (OpFetchMessage (channel_id c) i) = false →
  messages w !! (channel_id c, i) = Some d →
  fetch_message c i w = (Ok (message_in c i d), w).
Proof.
  intros Hf Hm. unfold fetch_message, bind, gets.
  rewrite (may_fail_ok _ _ _ Hf). by rewrite Hm.
Qed.

Lemma fetch_message_missing c i w :
  faults w (OpFetchMessage (channel_id c) i) = false →
  messages w !! (channel_id c, i) = None →
  fetch_message c i w = (Raise NotFound, w).
Proof.
  intros Hf Hm. unfold fetch_message, bind, gets.
  rewrite (may_fail_ok _ _ _ Hf). by rewrite Hm.
Qed.

Lemma fetch_message_fault c i w :
  faults w (OpFetchMessage (channel_id c) i) = true →
  fetch_message c i w = (Raise HTTPException, w).
Proof.
  intros Hf. unfold fetch_message, bind. by rewrite (may_fail_raise _ _ _ Hf).
Qed.

Lemma fetch_message_world c i w r w' : fetch_message c i w = (r, w') → w' = w.
Proof.
  destruct (faults w (OpFetchMessage (channel_id c) i)) eqn:Hf.
  - rewrite fetch_message_fault by done. congruence.
  - destruct (messages w !! (channel_id c, i)) as [d|] eqn:Hm.
    + rewrite (fetch_message_found _ _ d) by done. congruence.
    + rewrite fetch_message_missing by done. congruence.
Qed.

(** ** The gateway and store calls when they succeed *)

Ltac munfold :=
  unfold bind, gets, modify, record, ret, raise, may_fail, try_except,
    logger_error, logger_debug.
Ltac msimpl :=
  cbn [fst snd configs links channels messages next_id now me faults journal
       set_journal set_messages set_links set_next_id
       message_id message_guild message_channel message_data message_in
       link_message_id link_message_guild_id link_starboard_message_id new_link].
Ltac mrun := repeat (progress (munfold; msimpl)).

Lemma channel_send_ok c e w :
  faults w (OpSend (channel_id c)) = false →
  channel_send c e w
  = (Ok (message_in c (next_id w) (sent_data e w)), after_send c e w).
Proof. intros Hf. unfold channel_send. mrun. by rewrite Hf. Qed.

Lemma channel_send_fault c e w :
  faults w (OpSend (channel_id c)) = true →
  channel_send c e w = (Raise HTTPException, w).
Proof. intros Hf. unfold channel_send. mrun. by rewrite Hf. Qed.

Lemma message_edit_ok h e w d :
  faults w (OpEdit (message_channel h) (message_id h)) = false →
  messages w !! (message_channel h, message_id h) = Some d →
  message_data h = d →
  message_edit h e w = (Ok tt, after_edit h e w).
Proof. intros Hf Hm <-. unfold message_edit. mrun. by rewrite Hf, Hm. Qed.

Lemma message_delete_ok h w :
  faults w (OpDelete (message_channel h) (message_id h)) = false →
  is_Some (messages w !! (message_channel h, message_id h)) →
  message_delete h w = (Ok tt, after_delete h w).
Proof. intros Hf [d Hm]. unfold message_delete. mrun. by rewrite Hf, Hm. Qed.

Lemma put_starboard_message_ok l w :
  faults w (OpPutLink (link_message_id l) (link_message_guild_id l)) = false →
  put_starboard_message l w = (Ok tt, after_put l w).
Proof. intros Hf. unfold put_starboard_message. mrun. by rewrite Hf. Qed.

Lemma put_starboard_message_fault l w :
  faults w (OpPutLink (link_message_id l) (link_message_guild_id l)) = true →
  put_starboard_message l w = (Raise DatabaseError, w).
Proof. intros Hf. unfold put_starboard_message. mrun. by rewrite Hf. Qed.

Lemma get_starboard_by_guild_id_ok g w :
  faults w (OpGetConfig g) = false →
  get_starboard_by_guild_id g w = (Ok (configs w !! g), w).
Proof. intros Hf. unfold get_starboard_by_guild_id. mrun. by rewrite Hf. Qed.

Lemma get_starboard_by_guild_id_fault g w :
  faults w (OpGetConfig g) = true →
  get_starboard_by_guild_id g w = (Raise DatabaseError, w).
Proof. intros Hf. unfold get_starboard_by_guild_id. mrun. by rewrite Hf. Qed.

(** [get_existing_starboard_message] answers on every world once the
    message has a guild: an exception of the store or of the fetch is
    logged and turned into [None]. *)
Lemma existing_never_raises sc m g w :
  message_guild m = Some g →
  ∃ r w', get_existing_starboard_message sc m w = (Ok r, w')
          ∧ (w' = w ∨ r = None ∧ ∃ e, w' = logged LvlError site_fetch (Some e) w).
Proof.
  intros Hg.
  destruct (faults w (OpGetLink (message_id m) g)) eqn:Hf.
  { rewrite (existing_store_down sc m g w Hg Hf). eauto 10. }
  destruct (links w !! (message_id m, g)) as [l|] eqn:Hl.
  2:{ rewrite (existing_unlinked sc m g w Hg Hf Hl). eauto. }
  destruct (fetch_message sc (link_starboard_message_id l) w) as [[h|e] w1] eqn:Hfetch;
    pose proof (fetch_message_world _ _ _ _ _ Hfetch) as ->.
  - rewrite (existing_live sc m g w Hg l h Hf Hl Hfetch). eauto.
  - rewrite (existing_fetch_fails sc m g w Hg l e Hf Hl Hfetch). eauto 10.
Qed.

(** ** [create_or_update_starboard_message] *)

Lemma upsert_never_raises sc m n w :
  ∃ w', create_or_update_starboard_message sc m n w = (Ok tt, w').
Proof.
  unfold create_or_update_starboard_message.
  destruct (message_guild m) as [g|]; [|by eexists].
  unfold try_except.
  match goal with |- context [let (_, _) := ?b w in _] => destruct (b w) as [[[]|e] w'] end;
    by eexists.
Qed.

Section Upsert.
Variables (sc : Channel) (m : Message) (n g : Z) (sb : StarboardConfig) (w : World).
Hypothesis Hguild : message_guild m = Some g.
Hypothesis Hstore : faults w (OpGetConfig g) = false.
Hypothesis Hconfig : configs w !! g = Some sb.

(** The link resolves to a live highlight message: edit in place. *)
Lemma upsert_edit h :
  get_existing_starboard_message sc m w = (Ok (Some h), w) →
  messages w !! (message_channel h, message_id h) = Some (message_data h) →
  faults w (OpEdit (message_channel h) (message_id h)) = false →
  faults w (OpPutLink (message_id m) g) = false →
  create_or_update_starboard_message sc m n w
  = (Ok tt, after_put (new_link m g n (message_id h) w)
              (after_edit h (starboard_embed sb m n) w)).
Proof.
  intros Hex Hm He Hp. unfold create_or_update_starboard_message.
  rewrite Hguild. apply try_except_ok.
  rewrite (bind_ok _ _ _ _ _ (get_starboard_by_guild_id_ok g w Hstore)), Hconfig.
  rewrite (bind_ok _ _ _ _ _ Hex).
  rewrite (bind_ok _ _ w h (after_edit h (starboard_embed sb m n) w)).
  2:{ erewrite bind_ok; [reflexivity | by eapply message_edit_ok]. }
  unfold bind at 1, gets. by apply put_starboard_message_ok.
Qed.

(** No live highlight message was found: send a new one. *)
Lemma upsert_send w1 :
  get_existing_starboard_message sc m w = (Ok None, w1) →
  faults w1 (OpSend (channel_id sc)) = false →
  faults w1 (OpPutLink (message_id m) g) = false →
  create_or_update_starboard_message sc m n w
  = (Ok tt, after_put (new_link m g n (next_id w1) w1)
              (after_send sc (starboard_embed sb m n) w1)).
Proof.
  intros Hex Hs Hp. unfold create_or_update_starboard_message.
  rewrite Hguild. apply try_except_ok.
  rewrite (bind_ok _ _ _ _ _ (get_starboard_by_guild_id_ok g w Hstore)), Hconfig.
  rewrite (bind_ok _ _ _ _ _ Hex).
  rewrite (bind_ok _ _ _ _ _ (channel_send_ok sc _ w1 Hs)).
  unfold bind at 1, gets. by apply put_starboard_message_ok.
Qed.
End Upsert.

(** ** The reaction count *)

Lemma count_reactions_world p sb m w r w' :
  count_reactions p sb m w = (r, w') → w' = w.
Proof.
  unfold count_reactions, fetch_reaction_users.
  destruct (utils_get_emoji _ _) as [rc|]; mrun; [|congruence].
  destruct (faults w _); congruence.
Qed.

Lemma fetch_message_inv c i w m w' :
  fetch_message c i w = (Ok m, w') →
  ∃ d, m = message_in c i d ∧ messages w !! (channel_id c, i) = Some d
       ∧ faults w (OpFetchMessage (channel_id c) i) = false.
Proof.
  destruct (faults w (OpFetchMessage (channel_id c) i)) eqn:Hf.
  { rewrite fetch_message_fault by done. congruence. }
  destruct (messages w !! (channel_id c, i)) as [d|] eqn:Hm.
  - rewrite (fetch_message_found _ _ d) by done. intros [= <- <-]. eauto.
  - rewrite fetch_message_missing by done. congruence.
Qed.

(** ** The listeners past their guards *)

Section Listeners.
Variables (p : Payload) (g : Z) (sb : StarboardConfig) (c : Channel) (w : World).
Hypothesis Hgid : truthy_id (payload_guild_id p) = Some g.
Hypothesis Hstore : faults w (OpGetConfig g) = false.
Hypothesis Hconfig : configs w !! g = Some sb.
Hypothesis Hemoji : PartialEmoji_str (payload_emoji p) = starboard_emoji sb.
Hypothesis Hchannel :
  as_text_channel (channels w !! payload_channel_id p) = Some c.

Lemma remove_enters :
  starboard_on_reaction_remove p w
  = try_except (reaction_remove_try p sb c)
      (λ e, logger_debug site_remove (Some e)) w.
Proof.
  unfold starboard_on_reaction_remove. rewrite Hgid.
  rewrite (bind_ok _ _ _ _ _ (get_starboard_by_guild_id_ok g w Hstore)), Hconfig.
  rewrite decide_True by done.
  unfold bind at 1, bot_get_channel, gets. by rewrite Hchannel.
Qed.

Lemma add_enters member :
  payload_member p = Some member → user_bot member = false →
  starboard_on_reaction_add p w
  = try_except (reaction_add_try p sb c)
      (λ e, logger_debug site_add (Some e)) w.
Proof.
  intros Hm Hb. unfold starboard_on_reaction_add. rewrite Hgid, Hm, Hb.
  rewrite (bind_ok _ _ _ _ _ (get_starboard_by_guild_id_ok g w Hstore)), Hconfig.
  rewrite decide_True by done.
  unfold bind at 1, bot_get_channel, gets. by rewrite Hchannel.
Qed.

(** The fetch of the message, or of the roster, fails: the block
    raises and nothing else happened. *)
Lemma add_try_fetch_raises e :
  fetch_message c (payload_message_id p) w = (Raise e, w) →
  reaction_add_try p sb c w = (Raise e, w).
Proof. intros H. unfold reaction_add_try. by rewrite (bind_raise _ _ _ _ _ H). Qed.

Lemma remove_try_fetch_raises e :
  fetch_message c (payload_message_id p) w = (Raise e, w) →
  reaction_remove_try p sb c w = (Raise e, w).
Proof. intros H. unfold reaction_remove_try. by rewrite (bind_raise _ _ _ _ _ H). Qed.

Section Fetched.
Variable m : Message.
Hypothesis Hfetch : fetch_message c (payload_message_id p) w = (Ok m, w).

Lemma add_try_roster_raises e :
  count_reactions p sb m w = (Raise e, w) →
  reaction_add_try p sb c w = (Raise e, w).
Proof.
  intros H. unfold reaction_add_try.
  by rewrite (bind_ok _ _ _ _ _ Hfetch), (bind_raise _ _ _ _ _ H).
Qed.

Lemma remove_try_roster_raises e :
  count_reactions p sb m w = (Raise e, w) →
  reaction_remove_try p sb c w = (Raise e, w).
Proof.
  intros H. unfold reaction_remove_try.
  by rewrite (bind_ok _ _ _ _ _ Hfetch), (bind_raise _ _ _ _ _ H).
Qed.

Variable n : Z.
Hypothesis Hcount : count_reactions p sb m w = (Ok n, w).

Lemma add_try_below :
  n < starboard_threshold sb → reaction_add_try p sb c w = (Ok tt, w).
Proof.
  intros Hn. unfold reaction_add_try.
  rewrite (bind_ok _ _ _ _ _ Hfetch), (bind_ok _ _ _ _ _ Hcount).
  rewrite decide_False by lia. done.
Qed.

Lemma add_try_no_board :
  as_text_channel
    (channel_of_guild (channel_guild c) (starboard_channel_id sb) w) = None →
  reaction_add_try p sb c w = (Ok tt, w).
Proof.
  intros Hsc. unfold reaction_add_try.
  rewrite (bind_ok _ _ _ _ _ Hfetch), (bind_ok _ _ _ _ _ Hcount).
  case_decide; [|done].
  unfold bind, guild_get_channel, gets. by rewrite Hsc.
Qed.

Lemma remove_try_no_board :
  as_text_channel
    (channel_of_guild (channel_guild c) (starboard_channel_id sb) w) = None →
  reaction_remove_try p sb c w = (Ok tt, w).
Proof.
  intros Hsc. unfold reaction_remove_try.
  rewrite (bind_ok _ _ _ _ _ Hfetch), (bind_ok _ _ _ _ _ Hcount).
  unfold bind, guild_get_channel, gets. by rewrite Hsc.
Qed.

Variable sc : Channel.
Hypothesis Hboard :
  as_text_channel
    (channel_of_guild (channel_guild c) (starboard_channel_id sb) w) = Some sc.

Lemma add_try_promotes :
  starboard_threshold sb ≤ n →
  reaction_add_try p sb c w = create_or_update_starboard_message sc m n w.
Proof.
  intros Hn. unfold reaction_add_try.
  rewrite (bind_ok _ _ _ _ _ Hfetch), (bind_ok _ _ _ _ _ Hcount).
  rewrite decide_True by done.
  unfold bind at 1, guild_get_channel, gets. by rewrite Hboard.
Qed.

Lemma remove_try_promotes :
  starboard_threshold sb ≤ n →
  reaction_remove_try p sb c w = create_or_update_starboard_message sc m n w.
Proof.
  intros Hn. unfold reaction_remove_try.
  rewrite (bind_ok _ _ _ _ _ Hfetch), (bind_ok _ _ _ _ _ Hcount).
  unfold bind at 1, guild_get_channel, gets. rewrite Hboard.
  by rewrite decide_False by lia.
Qed.

Lemma remove_try_demotes :
  n < starboard_threshold sb →
  reaction_remove_try p sb c w
  = (let* existing := get_existing_starboard_message sc m in
     match existing with
     | Some h => message_delete h
     | None => ret tt
     end) w.
Proof.
  intros Hn. unfold reaction_remove_try.
  rewrite (bind_ok _ _ _ _ _ Hfetch), (bind_ok _ _ _ _ _ Hcount).
  unfold bind at 1, guild_get_channel, gets. rewrite Hboard.
  by rewrite decide_True by done.
Qed.
End Fetched.
End Listeners.

(** A block that cannot raise makes its [try] transparent. *)
Lemma try_upsert sc m n h w :
  try_except (create_or_update_starboard_message sc m n) h w
  = create_or_update_starboard_message sc m n w.
Proof.
  destruct (upsert_never_raises sc m n w) as [w' H].
  rewrite H. by apply try_except_ok.
Qed.

(** ** Promotion and demotion *)

(** Deleting the live highlight message of a linked original. *)
Lemma demote_linked sc m w l d :
  no_faults w → linked_live sc m w l d →
  let h := message_in sc (link_starboard_message_id l) d in
  (let* existing := get_existing_starboard_message sc m in
   match existing with
   | Some h => message_delete h
   | None => ret tt
   end) w = (Ok tt, after_delete h w)
  ∧ messages (after_delete h w) !! (channel_id sc, link_starboard_message_id l) = None
  ∧ get_existing_starboard_message sc m (after_delete h w)
    = (Ok None, logged LvlError site_fetch (Some NotFound) (after_delete h w)).
Proof.
  intros Hnf (g & Hg & Hl & Hm) h. split; [|split].
  - erewrite bind_ok.
    2:{ eapply existing_live; eauto. by apply fetch_message_found. }
    apply message_delete_ok; [apply Hnf|]. subst h. msimpl. by rewrite Hm.
  - subst h. unfold after_delete. msimpl. apply lookup_delete_eq.
  - apply (existing_fetch_fails sc m g _ Hg l NotFound); [apply Hnf|done|].
    apply fetch_message_missing; [apply Hnf|].
    subst h. unfold after_delete. msimpl. apply lookup_delete_eq.
Qed.

(** A count at or above the threshold hands the event to
    [create_or_update_starboard_message]. *)
Lemma promotion_runs_upsert p g sb c w m n :
  past_guards p g sb c w →
  counted p sb c w m n →
  ∀ sc, board sb c w sc → starboard_threshold sb ≤ n →
    starboard_on_reaction_remove p w
    = create_or_update_starboard_message sc m n w
    ∧ (human_member p →
       starboard_on_reaction_add p w
       = create_or_update_starboard_message sc m n w).
Proof.
  intros (Hgid & Hst & Hcfg & Hem & Hch) [Hfetch Hcount] sc Hsc Hn. split.
  - rewrite (remove_enters p g sb c w) by done.
    rewrite <- (try_upsert sc m n (λ e, logger_debug site_remove (Some e)) w).
    unfold try_except. by rewrite (remove_try_promotes p sb c w m Hfetch n Hcount sc Hsc Hn).
  - intros (member & Hm & Hb).
    rewrite (add_enters p g sb c w Hgid Hst Hcfg Hem Hch member Hm Hb).
    rewrite <- (try_upsert sc m n (λ e, logger_debug site_add (Some e)) w).
    unfold try_except. by rewrite (add_try_promotes p sb c w m Hfetch n Hcount sc Hsc Hn).
Qed.

(** C2: on a configured server, for an event with the configured emoji
    whose message and roster were fetched, a count at or above the
    threshold makes the remove listener, and the add listener for a
    member that is not a bot, run [create_or_update_starboard_message]
    on the highlight channel with that count; an add event whose count
    is below the threshold leaves the world as it was. *)
Theorem threshold_decides_promotion p g sb c w m n :
  past_guards p g sb c w →
  counted p sb c w m n →
  (∀ sc, board sb c w sc → starboard_threshold sb ≤ n →
     starboard_on_reaction_remove p w
     = create_or_update_starboard_message sc m n w
     ∧ (human_member p →
        starboard_on_reaction_add p w
        = create_or_update_starboard_message sc m n w))
  ∧ (n < starboard_threshold sb → starboard_on_reaction_add p w = (Ok tt, w)).
Proof.
  intros Hpast Hcounted. split.
  - by apply (promotion_runs_upsert p g sb c w m n).
  - destruct Hpast as (Hgid & Hst & Hcfg & Hem & Hch).
    destruct Hcounted as [Hfetch Hcount]. intros Hn.
    destruct (payload_member p) as [member|] eqn:Hm.
    2:{ unfold starboard_on_reaction_add. rewrite Hgid, Hm. done. }
    destruct (user_bot member) eqn:Hb.
    { unfold starboard_on_reaction_add. rewrite Hgid, Hm, Hb. done. }
    rewrite (add_enters p g sb c w Hgid Hst Hcfg Hem Hch member Hm Hb).
    apply try_except_ok. by eapply add_try_below.
Qed.

(** The row of a demoted message is still in the store. *)
Lemma stale_row_is_still_read h w m g l :
  faults w (OpGetLink (message_id m) g) = false →
  links w !! (message_id m, g) = Some l →
  get_starboard_message_by_id (message_id m) g (after_delete h w)
  = (Ok (Some l), after_delete h w).
Proof.
  intros Hf Hl. unfold get_starboard_message_by_id, bind, gets.
  rewrite (may_fail_ok _ _ (after_delete h w) Hf).
  unfold after_delete. msimpl. by rewrite Hl.
Qed.

(** C3, as the code has it: on a configured server, a remove event with
    the configured emoji, for a message in the Linked state whose
    qualifying count is below the threshold and is the count the
    listener computes, deletes the highlight message.  The link is not
    dropped: its row stays in the store and is still returned for the
    message and its server; it is stale, and
    [get_existing_starboard_message] finds no highlight message behind
    it. *)
Theorem removal_below_threshold_demotes p g sb c w m sc l d :
  no_faults w →
  past_guards p g sb c w →
  counted p sb c w m (qualifying_count_spec m (starboard_emoji sb)) →
  board sb c w sc →
  qualifying_count_spec m (starboard_emoji sb) < starboard_threshold sb →
  linked_live sc m w l d →
  let h := message_in sc (link_starboard_message_id l) d in
  starboard_on_reaction_remove p w = (Ok tt, after_delete h w)
  ∧ journal (after_delete h w)
    = ADelete (channel_id sc) (link_starboard_message_id l) :: journal w
  ∧ messages (after_delete h w) !! (channel_id sc, link_starboard_message_id l) = None
  ∧ links (after_delete h w) = links w
  ∧ get_starboard_message_by_id (message_id m) (channel_guild c) (after_delete h w)
    = (Ok (Some l), after_delete h w)
  ∧ get_existing_starboard_message sc m (after_delete h w)
    = (Ok None, logged LvlError site_fetch (Some NotFound) (after_delete h w)).
Proof.
  intros Hnf (Hgid & Hst & Hcfg & Hem & Hch) [Hfetch Hcount] Hsc Hn Hlive h.
  destruct (demote_linked sc m w l d Hnf Hlive) as (Hrun & Hgone & Hlookup).
  destruct (fetch_message_inv _ _ _ _ _ Hfetch) as (d0 & Hm & _).
  destruct Hlive as (g' & Hg' & Hl & _).
  rewrite Hm in Hg'. cbn [message_guild message_in] in Hg'. injection Hg' as <-.
  split_and!; try done.
  - rewrite (remove_enters p g sb c w) by done.
    apply try_except_ok.
    by rewrite (remove_try_demotes p sb c w m Hfetch _ Hcount sc Hsc Hn).
  - apply stale_row_is_still_read; [apply Hnf|done].
Qed.

(** C4, as the code has it: a clear event with a server id, in a cached
    text channel, whose message can be fetched, does nothing when the
    server has no configuration or its highlight channel does not
    resolve, also when a link exists.  On a configured server, for a
    message in the Linked state, it deletes the highlight message,
    whatever the reactions of the message, its star count and the
    threshold are; the link is not dropped: its row stays in the store
    and is still returned for the message and its server, stale, with
    no highlight message behind it. *)
Theorem clear_demotes_when_configured p g c w m :
  no_faults w →
  truthy_id (payload_guild_id p) = Some g →
  as_text_channel (channels w !! payload_channel_id p) = Some c →
  fetch_message c (payload_message_id p) w = (Ok m, w) →
  (configs w !! g = None → starboard_on_reaction_clear p w = (Ok tt, w))
  ∧ (∀ sb, configs w !! g = Some sb →
           as_text_channel
             (channel_of_guild (channel_guild c) (starboard_channel_id sb) w) = None →
           starboard_on_reaction_clear p w = (Ok tt, w))
  ∧ (∀ sb sc l d,
       configs w !! g = Some sb → board sb c w sc → linked_live sc m w l d →
       let h := message_in sc (link_starboard_message_id l) d in
       starboard_on_reaction_clear p w = (Ok tt, after_delete h w)
       ∧ journal (after_delete h w)
         = ADelete (channel_id sc) (link_starboard_message_id l) :: journal w
       ∧ messages (after_delete h w)
         !! (channel_id sc, link_starboard_message_id l) = None
       ∧ links (after_delete h w) = links w
       ∧ get_starboard_message_by_id (message_id m) (channel_guild c)
           (after_delete h w)
         = (Ok (Some l), after_delete h w)
       ∧ get_existing_starboard_message sc m (after_delete h w)
         = (Ok None, logged LvlError site_fetch (Some NotFound) (after_delete h w))).
Proof.
  intros Hnf Hgid Hch Hfetch.
  assert (Henter :
    starboard_on_reaction_clear p w
    = try_except
        (match configs w !! g with
         | None => ret tt
         | Some starboard =>
             let* starboard_channel :=
               guild_get_channel (channel_guild c) (starboard_channel_id starboard) in
             match as_text_channel starboard_channel with
             | None => ret tt
             | Some starboard_channel =>
                 let* existing :=
                   get_existing_starboard_message starboard_channel m in
                 match existing with
                 | Some h => message_delete h
                 | None => ret tt
                 end
             end
         end)
        (λ e, logger_error site_clear (Some e)) w).
  { unfold starboard_on_reaction_clear. rewrite Hgid.
    unfold try_except, reaction_clear_try.
    unfold bind at 1, bot_get_channel, gets. rewrite Hch.
    rewrite (bind_ok _ _ _ _ _ Hfetch).
    by rewrite (bind_ok _ _ _ _ _ (get_starboard_by_guild_id_ok g w (Hnf _))). }
  split_and!.
  - intros Hcfg. rewrite Henter, Hcfg. by apply try_except_ok.
  - intros sb Hcfg Hsc. rewrite Henter, Hcfg. apply try_except_ok.
    unfold bind, guild_get_channel, gets. by rewrite Hsc.
  - intros sb sc l d Hcfg Hsc Hlive h.
    destruct (demote_linked sc m w l d Hnf Hlive) as (Hdel & Hgone & Hlookup).
    destruct (fetch_message_inv _ _ _ _ _ Hfetch) as (d0 & Hm & _).
    destruct Hlive as (g' & Hg' & Hl & _).
    rewrite Hm in Hg'. cbn [message_guild message_in] in Hg'. injection Hg' as <-.
    split_and!; try done.
    + rewrite Henter, Hcfg. apply try_except_ok.
      unfold bind at 1, guild_get_channel, gets. rewrite Hsc. exact Hdel.
    + apply stale_row_is_still_read; [apply Hnf|done].
Qed.

(** ** Upsert twice *)

Section UpsertTwice.
Variables (sc : Channel) (m : Message) (n g : Z) (sb : StarboardConfig).
Hypothesis Hguild : message_guild m = Some g.

Lemma upsert_linked_edits w l d :
  no_faults w → configs w !! g = Some sb →
  links w !! (message_id m, g) = Some l →
  messages w !! (channel_id sc, link_starboard_message_id l) = Some d →
  create_or_update_starboard_message sc m n w
  = (Ok tt,
     after_put (new_link m g n (link_starboard_message_id l) w)
       (after_edit (message_in sc (link_starboard_message_id l) d)
          (starboard_embed sb m n) w)).
Proof.
  intros Hnf Hcfg Hl Hm.
  apply (upsert_edit sc m n g sb w Hguild (Hnf _) Hcfg
           (message_in sc (link_starboard_message_id l) d)); try apply Hnf; [|done].
  apply (existing_live sc m g w Hguild l); [apply Hnf|done|].
  by apply fetch_message_found.
Qed.

(** Whatever the state before, a call that meets no failure leaves the
    message linked to a live highlight message, and has sent at most
    one message to get there. *)
Lemma upsert_establishes_link w :
  no_faults w → configs w !! g = Some sb →
  ∃ w1 l1 d1,
    create_or_update_starboard_message sc m n w = (Ok tt, w1)
    ∧ no_faults w1 ∧ configs w1 = configs w
    ∧ links w1 !! (message_id m, g) = Some l1
    ∧ messages w1 !! (channel_id sc, link_starboard_message_id l1) = Some d1
    ∧ (sends (journal w1) = sends (journal w)
       ∨ sends (journal w1)
         = (channel_id sc, link_starboard_message_id l1) :: sends (journal w)).
Proof.
  intros Hnf Hcfg.
  destruct (links w !! (message_id m, g)) as [l|] eqn:Hl.
  - destruct (messages w !! (channel_id sc, link_starboard_message_id l))
      as [d|] eqn:Hm.
    + eexists _, _, _. split; [by apply (upsert_linked_edits w l d)|].
      unfold after_put, after_edit, new_link. msimpl.
      split_and!; [apply Hnf|done|apply lookup_insert_eq| |by left].
      msimpl. apply lookup_insert_eq.
    + eexists _, _, _. split.
      { apply (upsert_send sc m n g sb w Hguild (Hnf _) Hcfg
                 (logged LvlError site_fetch (Some NotFound) w)); try apply Hnf.
        apply (existing_fetch_fails sc m g w Hguild l); [apply Hnf|done|].
        by apply fetch_message_missing. }
      unfold after_put, after_send, new_link, logged. msimpl.
      split_and!; [apply Hnf|done|apply lookup_insert_eq| |by right].
      msimpl. apply lookup_insert_eq.
  - eexists _, _, _. split.
    { apply (upsert_send sc m n g sb w Hguild (Hnf _) Hcfg w); try apply Hnf.
      apply (existing_unlinked sc m g w Hguild); [apply Hnf|done]. }
    unfold after_put, after_send, new_link. msimpl.
    split_and!; [apply Hnf|done|apply lookup_insert_eq| |by right].
    msimpl. apply lookup_insert_eq.
Qed.
End UpsertTwice.

(** C5: when the link of a message points at a live highlight message,
    [create_or_update_starboard_message] edits that message in place and
    sends nothing; hence two calls in a row send at most one message,
    the second call edits the message the first one left, and the link
    then names that one live highlight message. *)
Theorem upsert_is_idempotent sc m n g sb w :
  no_faults w →
  message_guild m = Some g →
  configs w !! g = Some sb →
  (∀ l d, links w !! (message_id m, g) = Some l →
          messages w !! (channel_id sc, link_starboard_message_id l) = Some d →
          create_or_update_starboard_message sc m n w
          = (Ok tt,
             after_put (new_link m g n (link_starboard_message_id l) w)
               (after_edit (message_in sc (link_starboard_message_id l) d)
                  (starboard_embed sb m n) w)))
  ∧ ∃ w1 w2 h,
      create_or_update_starboard_message sc m n w = (Ok tt, w1)
      ∧ create_or_update_starboard_message sc m n w1 = (Ok tt, w2)
      ∧ (sends (journal w1) = sends (journal w)
         ∨ sends (journal w1) = (channel_id sc, h) :: sends (journal w))
      ∧ journal w2
        = APutLink (new_link m g n h w1)
            :: AEdit (channel_id sc) h (starboard_embed sb m n) :: journal w1
      ∧ sends (journal w2) = sends (journal w1)
      ∧ next_id w2 = next_id w1
      ∧ link_starboard_message_id <$> links w2 !! (message_id m, g) = Some h
      ∧ is_Some (messages w2 !! (channel_id sc, h)).
Proof.
  intros Hnf Hg Hcfg. split.
  { intros l d. by apply upsert_linked_edits. }
  destruct (upsert_establishes_link sc m n g sb Hg w Hnf Hcfg)
    as (w1 & l1 & d1 & Hrun1 & Hnf1 & Hcfg1 & Hl1 & Hm1 & Hsends).
  rewrite <- Hcfg1 in Hcfg.
  pose proof (upsert_linked_edits sc m n g sb Hg w1 l1 d1 Hnf1 Hcfg Hl1 Hm1) as Hrun2.
  eexists w1, _, (link_starboard_message_id l1).
  split; [done|]. split; [exact Hrun2|].
  unfold after_put, after_edit, new_link. msimpl.
  split_and!; try done.
  - by rewrite lookup_insert_eq.
  - rewrite lookup_insert_eq. by eexists.
Qed.

(** ** Self-healing and failures of the link lookup *)

(** C6: a message whose link names a highlight message that is gone is
    treated as unlinked: the failed fetch is logged and turned into "no
    highlight message", and the next qualifying event (a remove event,
    or an add event of a member that is not a bot, with a count at or
    above the threshold) sends a fresh highlight message and points the
    link at it. *)
Theorem stale_link_heals p g sb c w m n sc l :
  no_faults w →
  past_guards p g sb c w →
  channel_guild c = g →
  counted p sb c w m n →
  board sb c w sc →
  starboard_threshold sb ≤ n →
  linked_stale sc m w l →
  let e := starboard_embed sb m n in
  let w1 := logged LvlError site_fetch (Some NotFound) w in
  let w2 := after_put (new_link m g n (next_id w) w) (after_send sc e w1) in
  get_existing_starboard_message sc m w = (Ok None, w1)
  ∧ create_or_update_starboard_message sc m n w = (Ok tt, w2)
  ∧ starboard_on_reaction_remove p w = (Ok tt, w2)
  ∧ (human_member p → starboard_on_reaction_add p w = (Ok tt, w2))
  ∧ journal w2
    = APutLink (new_link m g n (next_id w) w)
        :: ASend (channel_id sc) (next_id w) e
        :: ALog LvlError site_fetch (Some NotFound) :: journal w
  ∧ messages w2 !! (channel_id sc, next_id w) = Some (sent_data e w)
  ∧ link_starboard_message_id <$> links w2 !! (message_id m, g) = Some (next_id w).
Proof.
  intros Hnf Hpast Hcg [Hfetch Hcount] Hsc Hn (g' & Hg' & Hl & Hm) e w1 w2.
  pose proof Hpast as (Hgid & Hst & Hcfg & Hem & Hch).
  destruct (fetch_message_inv _ _ _ _ _ Hfetch) as (d & -> & _ & _).
  cbn [message_guild message_in] in Hg'. injection Hg' as <-. subst g.
  set (m := message_in c (payload_message_id p) d) in *.
  assert (Hg : message_guild m = Some (channel_guild c)) by done.
  assert (Hex : get_existing_starboard_message sc m w = (Ok None, w1)).
  { apply (existing_fetch_fails sc m (channel_guild c) w Hg l);
      [apply Hnf|done|]. by apply fetch_message_missing. }
  assert (Hup : create_or_update_starboard_message sc m n w = (Ok tt, w2)).
  { apply (upsert_send sc m n (channel_guild c) sb w Hg Hst Hcfg w1 Hex);
      apply Hnf. }
  destruct (promotion_runs_upsert p (channel_guild c) sb c w _ n Hpast
              (conj Hfetch Hcount) sc Hsc Hn) as [Hrem Hadd].
  split_and!; try done.
  - by rewrite Hrem.
  - intros Hh. by rewrite (Hadd Hh).
  - subst w2. unfold after_put, after_send. msimpl. by rewrite lookup_insert_eq.
  - subst w2. unfold after_put, after_send. msimpl. by rewrite lookup_insert_eq.
Qed.

(** C10: for a message of a guild, [get_existing_starboard_message]
    returns on every world and never raises; an exception of the
    link-store lookup, or of the fetch of the highlight message, is
    logged and answered with [None].  So when the link store cannot be
    read, [create_or_update_starboard_message] still sends a new
    highlight message. *)
Theorem existing_lookup_total sc m g w :
  message_guild m = Some g →
  (∃ r w', get_existing_starboard_message sc m w = (Ok r, w'))
  ∧ (faults w (OpGetLink (message_id m) g) = true →
     get_existing_starboard_message sc m w
     = (Ok None, logged LvlError site_fetch (Some DatabaseError) w))
  ∧ (∀ l e, faults w (OpGetLink (message_id m) g) = false →
            links w !! (message_id m, g) = Some l →
            fetch_message sc (link_starboard_message_id l) w = (Raise e, w) →
            get_existing_starboard_message sc m w
            = (Ok None, logged LvlError site_fetch (Some e) w))
  ∧ (∀ n sb, faults w (OpGetLink (message_id m) g) = true →
             faults w (OpGetConfig g) = false →
             configs w !! g = Some sb →
             faults w (OpSend (channel_id sc)) = false →
             ∃ w', create_or_update_starboard_message sc m n w = (Ok tt, w')
                   ∧ ASend (channel_id sc) (next_id w) (starboard_embed sb m n)
                     ∈ journal w'
                   ∧ is_Some (messages w' !! (channel_id sc, next_id w))).
Proof.
  intros Hg. split_and!.
  - destruct (existing_never_raises sc m g w Hg) as (r & w' & H & _). eauto.
  - by apply existing_store_down.
  - intros l e. by apply existing_fetch_fails.
  - intros n sb Hdown Hst Hcfg Hsend.
    pose proof (existing_store_down sc m g w Hg Hdown) as Hex.
    destruct (faults w (OpPutLink (message_id m) g)) eqn:Hput.
    + eexists. split.
      { unfold create_or_update_starboard_message. rewrite Hg.
        erewrite try_except_raise; [reflexivity|].
        rewrite (bind_ok _ _ _ _ _ (get_starboard_by_guild_id_ok g w Hst)), Hcfg.
        rewrite (bind_ok _ _ _ _ _ Hex).
        rewrite (bind_ok _ _ _ _ _
                   (channel_send_ok sc _
                      (logged LvlError site_fetch (Some DatabaseError) w) Hsend)).
        unfold bind at 1, gets. by apply put_starboard_message_fault. }
      unfold logger_error, record, modify, after_send, logged. msimpl.
      split; [set_solver|]. rewrite lookup_insert_eq. by eexists.
    + eexists. split.
      { by apply (upsert_send sc m n g sb w Hg Hst Hcfg _ Hex). }
      unfold after_put, after_send, logged. msimpl.
      split; [set_solver|]. rewrite lookup_insert_eq. by eexists.
Qed.

(** ** The count against the Reaction Counter of the specification *)

Lemma foldl_decrement (a : option Z) (us : list User) (c0 : Z) :
  foldl (λ count user, if decide (Some (user_id user) = a) then count - 1 else count)
    c0 us
  = c0 - Z.of_nat (length (filter (λ u, Some (user_id u) = a) us)).
Proof.
  revert c0. induction us as [|u us IH]; intros c0; [cbn; lia|].
  cbn [foldl]. rewrite IH, filter_cons. case_decide; cbn [length]; lia.
Qed.

Lemma remove_dups_NoDup {A} `{EqDecision A} (l : list A) :
  NoDup l → remove_dups l = l.
Proof.
  induction 1 as [|x l Hx _ IH]; [done|].
  cbn. destruct (decide_rel elem_of x l); [done|by rewrite IH].
Qed.

Lemma occurrences_NoDup (x : Z) (us : list User) :
  NoDup (user_id <$> us) →
  length (filter (λ u, Some (user_id u) = Some x) us)
  = if decide (x ∈ user_id <$> us) then 1%nat else 0%nat.
Proof.
  induction us as [|u us IH]; [done|].
  rewrite fmap_cons, NoDup_cons. intros [Hu Hnd].
  specialize (IH Hnd). rewrite filter_cons.
  destruct (decide (Some (user_id u) = Some x)) as [Heq|Hne];
    cbn [length]; rewrite IH.
  - injection Heq as Heq.
    destruct (decide (x ∈ user_id <$> us)) as [Hin|_].
    { exfalso. apply Hu. by rewrite Heq. }
    destruct (decide (x ∈ user_id u :: (user_id <$> us))) as [_|Hout]; [done|].
    exfalso. apply Hout. rewrite Heq. apply list_elem_of_here.
  - destruct (decide (x ∈ user_id <$> us)) as [Hin|Hout];
      destruct (decide (x ∈ user_id u :: (user_id <$> us))) as [Hin'|Hout'];
      try done; exfalso.
    + apply Hout'. by apply list_elem_of_further.
    + apply elem_of_cons in Hin' as [Heq|Hin']; [|by apply Hout].
      apply Hne. by rewrite Heq.
Qed.

(** When the event carries the id of the author of the message and the
    snapshot of the trigger reaction is consistent, the count of the
    listeners is the qualifying count of section 4.1. *)
Lemma count_reactions_meets_spec p sb m w :
  payload_message_author_id p = Some (user_id (message_author m)) →
  faults w (OpReactionUsers (message_channel m) (message_id m)) = false →
  (∀ r, utils_get_emoji (message_reactions m) (starboard_emoji sb) = Some r →
        consistent r) →
  count_reactions p sb m w
  = (Ok (qualifying_count_spec m (starboard_emoji sb)), w).
Proof.
  intros Ha Hf Hcons. unfold count_reactions, qualifying_count_spec.
  destruct (utils_get_emoji _ _) as [r|]; [|done].
  destruct (Hcons r eq_refl) as [Hnd Hlen].
  unfold fetch_reaction_users. mrun. rewrite Hf. mrun.
  rewrite foldl_decrement, Ha, (occurrences_NoDup _ _ Hnd), Hlen.
  rewrite (remove_dups_NoDup _ Hnd), length_fmap.
  do 2 f_equal.
  destruct (decide (user_id (message_author m) ∈ user_id <$> reaction_users r))
    as [Hin|Hout]; [|lia].
  assert (0 < length (reaction_users r))%nat; [|lia].
  destruct (reaction_users r); [set_solver|cbn; lia].
Qed.

(** Without the id of the author in the event nothing is subtracted:
    the count is the [count] field of the snapshot. *)
Lemma count_reactions_without_author p sb m w r :
  payload_message_author_id p = None →
  faults w (OpReactionUsers (message_channel m) (message_id m)) = false →
  utils_get_emoji (message_reactions m) (starboard_emoji sb) = Some r →
  count_reactions p sb m w = (Ok (reaction_count r), w).
Proof.
  intros Ha Hf Hr. unfold count_reactions, fetch_reaction_users. rewrite Hr.
  mrun. rewrite Hf. mrun. rewrite Ha. do 2 f_equal.
  generalize (reaction_count r).
  induction (reaction_users r) as [|u us IH]; intros n; [done|].
  cbn [foldl]. by rewrite decide_False.
Qed.

(** A remove event names no author; its count is still the qualifying
    count of section 4.1 when the snapshot is consistent and the author
    of the message is not on the roster. *)
Lemma count_reactions_meets_spec_without_self p sb m w :
  payload_message_author_id p = None →
  faults w (OpReactionUsers (message_channel m) (message_id m)) = false →
  (∀ r, utils_get_emoji (message_reactions m) (starboard_emoji sb) = Some r →
        consistent r
        ∧ user_id (message_author m) ∉ user_id <$> reaction_users r) →
  count_reactions p sb m w
  = (Ok (qualifying_count_spec m (starboard_emoji sb)), w).
Proof.
  intros Ha Hf Hcons.
  destruct (utils_get_emoji (message_reactions m) (starboard_emoji sb))
    as [r|] eqn:Hr.
  - rewrite (count_reactions_without_author p sb m w r Ha Hf Hr).
    destruct (Hcons r eq_refl) as [[Hnd Hlen] Hout].
    unfold qualifying_count_spec. rewrite Hr.
    rewrite (remove_dups_NoDup _ Hnd), length_fmap, decide_False by done.
    do 2 f_equal. lia.
  - unfold count_reactions, qualifying_count_spec. by rewrite Hr.
Qed.

(** ** Ignored events *)

(** C7, as the code has it: an add event without a server id, without a
    member, from a bot, on a server without configuration, or with an
    emoji other than the configured one, is ignored with no state
    change; a remove event without a server id, on a server without
    configuration, or with another emoji, is ignored with no state
    change; the remove listener never reads the member of the event, so
    who removed the reaction makes no difference to it. *)
Theorem ignored_events_change_nothing p w :
  (truthy_id (payload_guild_id p) = None ∨ payload_member p = None
   ∨ from_bot p ∨ not_for_starboard p w →
   starboard_on_reaction_add p w = (Ok tt, w))
  ∧ (truthy_id (payload_guild_id p) = None ∨ not_for_starboard p w →
     starboard_on_reaction_remove p w = (Ok tt, w))
  ∧ (∀ member,
       starboard_on_reaction_remove (with_member member p) w
       = starboard_on_reaction_remove p w).
Proof.
  split_and!.
  - unfold starboard_on_reaction_add.
    intros [Hg|[Hm|[(member & Hm & Hb)|(g & Hg & Hst & Hcfg)]]].
    + by rewrite Hg.
    + rewrite Hm. by destruct (truthy_id _).
    + rewrite Hm, Hb. by destruct (truthy_id _).
    + rewrite Hg. destruct (payload_member p) as [member|]; [|done].
      destruct (user_bot member); [done|].
      rewrite (bind_ok _ _ _ _ _ (get_starboard_by_guild_id_ok g w Hst)).
      destruct (configs w !! g) as [sb|]; [|done].
      by rewrite decide_False.
  - unfold starboard_on_reaction_remove.
    intros [Hg|(g & Hg & Hst & Hcfg)]; rewrite Hg; [done|].
    rewrite (bind_ok _ _ _ _ _ (get_starboard_by_guild_id_ok g w Hst)).
    destruct (configs w !! g) as [sb|]; [|done].
    by rewrite decide_False.
  - done.
Qed.

(** ** Failures of the fetch *)

(** C8, as the code has it: when the fetch of the message or of its
    roster fails, the listener catches the exception, logs it at debug
    level and returns; stores and channels are as before.  For an add
    event that is what a count of 0 would give; for a remove event the
    highlight message of a linked message stays. *)
Theorem fetch_failure_drops_event p g sb c w e :
  past_guards p g sb c w →
  fetch_fails p sb c w e →
  starboard_on_reaction_remove p w = (Ok tt, logged LvlDebug site_remove (Some e) w)
  ∧ (human_member p →
     starboard_on_reaction_add p w = (Ok tt, logged LvlDebug site_add (Some e) w))
  ∧ ∀ site, messages (logged LvlDebug site (Some e) w) = messages w
            ∧ links (logged LvlDebug site (Some e) w) = links w.
Proof.
  intros (Hgid & Hst & Hcfg & Hem & Hch) Hfail. split_and!; [| |done].
  - rewrite (remove_enters p g sb c w) by done.
    erewrite try_except_raise; [reflexivity|].
    destruct Hfail as [Hf|(m & Hf & Hc)].
    + by apply remove_try_fetch_raises.
    + by apply (remove_try_roster_raises p sb c w m).
  - intros (member & Hm & Hb).
    rewrite (add_enters p g sb c w Hgid Hst Hcfg Hem Hch member Hm Hb).
    erewrite try_except_raise; [reflexivity|].
    destruct Hfail as [Hf|(m & Hf & Hc)].
    + by apply add_try_fetch_raises.
    + by apply (add_try_roster_raises p sb c w m).
Qed.

(** ** What escapes the listeners *)

Lemma assertion_escapes p g sb w :
  truthy_id (payload_guild_id p) = Some g →
  faults w (OpGetConfig g) = false →
  configs w !! g = Some sb →
  PartialEmoji_str (payload_emoji p) = starboard_emoji sb →
  as_text_channel (channels w !! payload_channel_id p) = None →
  starboard_on_reaction_remove p w = (Raise AssertionError, w)
  ∧ (human_member p → starboard_on_reaction_add p w = (Raise AssertionError, w))
  ∧ starboard_on_reaction_clear p w
    = (Ok tt, logged LvlError site_clear (Some AssertionError) w).
Proof.
  intros Hgid Hst Hcfg Hem Hch. split_and!.
  - unfold starboard_on_reaction_remove. rewrite Hgid.
    rewrite (bind_ok _ _ _ _ _ (get_starboard_by_guild_id_ok g w Hst)), Hcfg.
    rewrite decide_True by done.
    unfold bind at 1, bot_get_channel, gets. by rewrite Hch.
  - intros (member & Hm & Hb).
    unfold starboard_on_reaction_add. rewrite Hgid, Hm, Hb.
    rewrite (bind_ok _ _ _ _ _ (get_starboard_by_guild_id_ok g w Hst)), Hcfg.
    rewrite decide_True by done.
    unfold bind at 1, bot_get_channel, gets. by rewrite Hch.
  - unfold starboard_on_reaction_clear. rewrite Hgid.
    erewrite try_except_raise; [reflexivity|].
    unfold reaction_clear_try, bind at 1, bot_get_channel, gets. by rewrite Hch.
Qed.

Lemma store_failure_escapes p g w :
  truthy_id (payload_guild_id p) = Some g →
  faults w (OpGetConfig g) = true →
  starboard_on_reaction_remove p w = (Raise DatabaseError, w)
  ∧ (human_member p → starboard_on_reaction_add p w = (Raise DatabaseError, w)).
Proof.
  intros Hgid Hst. split.
  - unfold starboard_on_reaction_remove. rewrite Hgid.
    by rewrite (bind_raise _ _ _ _ _ (get_starboard_by_guild_id_fault g w Hst)).
  - intros (member & Hm & Hb).
    unfold starboard_on_reaction_add. rewrite Hgid, Hm, Hb.
    by rewrite (bind_raise _ _ _ _ _ (get_starboard_by_guild_id_fault g w Hst)).
Qed.

(** ** The claims on the concrete server *)

Import Scenario.

Lemma healthy_no_faults d : no_faults (unlinked d healthy)
  ∧ no_faults (linked d healthy) ∧ no_faults (stale d healthy).
Proof. by split_and!; intros o. Qed.

(** C1, on the code: a remove event carries no [message_author_id], so
    the remove listener subtracts nothing for the author's own star.
    Alice starred her own message; after dave removed his star the
    roster is alice, bob, carol and the threshold is 3.  The qualifying
    count of section 4.1 is 2; the listener counts 3, and instead of
    deleting the highlight message it refreshes it with 3 stars.  The
    add listener, whose event names the author, counts 2 on the same
    message. *)
Theorem remove_counts_self_reaction :
  qualifying_count_spec (original (starred [alice; bob; carol])) star = 2
  ∧ count_reactions (removed dave 10) config
      (original (starred [alice; bob; carol]))
      (linked (starred [alice; bob; carol]) healthy)
    = (Ok 3, linked (starred [alice; bob; carol]) healthy)
  ∧ count_reactions (added carol 10) config
      (original (starred [alice; bob; carol]))
      (linked (starred [alice; bob; carol]) healthy)
    = (Ok 2, linked (starred [alice; bob; carol]) healthy)
  ∧ ∃ w',
      starboard_on_reaction_remove (removed dave 10)
        (linked (starred [alice; bob; carol]) healthy) = (Ok tt, w')
      ∧ is_Some (messages w' !! (20, 400))
      ∧ link_star_count <$> links w' !! (100, 1) = Some 3
      ∧ ADelete 20 400 ∉ journal w'.
Proof.
  split_and!; [by vm_compute..|].
  eexists. split; [by vm_compute|]. split_and!.
  - eexists. by vm_compute.
  - by vm_compute.
  - vm_compute. intros H. repeat (apply elem_of_cons in H as [H|H]; [discriminate|]).
    by apply elem_of_nil in H.
Qed.

(** C9, on the code: an add or remove event with the configured emoji
    in a channel that is not a text channel (a thread) raises
    [AssertionError] out of the listener, the assertion standing before
    the [try]; so does a failure of the configuration store.  The clear
    listener, which resolves the channel inside its [try], catches the
    same assertion and logs it. *)
Theorem assertion_leaves_listener :
  starboard_on_reaction_add (added carol 30) (unlinked (starred [bob; carol]) healthy)
  = (Raise AssertionError, unlinked (starred [bob; carol]) healthy)
  ∧ starboard_on_reaction_remove (removed carol 30)
      (unlinked (starred [bob; carol]) healthy)
    = (Raise AssertionError, unlinked (starred [bob; carol]) healthy)
  ∧ starboard_on_reaction_clear (removed carol 30)
      (unlinked (starred [bob; carol]) healthy)
    = (Ok tt, logged LvlError site_clear (Some AssertionError)
                (unlinked (starred [bob; carol]) healthy))
  ∧ starboard_on_reaction_add (added carol 10)
      (unlinked (starred [bob; carol]) config_down)
    = (Raise DatabaseError, unlinked (starred [bob; carol]) config_down)
  ∧ starboard_on_reaction_remove (removed carol 10)
      (unlinked (starred [bob; carol]) config_down)
    = (Raise DatabaseError, unlinked (starred [bob; carol]) config_down).
Proof.
  assert (Hhuman : human_member (added carol 30)) by (by exists carol).
  assert (Hhuman' : human_member (added carol 10)) by (by exists carol).
  destruct (assertion_escapes (added carol 30) 1 config
              (unlinked (starred [bob; carol]) healthy))
    as (_ & Hadd & _); [done..|].
  destruct (assertion_escapes (removed carol 30) 1 config
              (unlinked (starred [bob; carol]) healthy))
    as (Hrem & _ & Hclear); [done..|].
  destruct (store_failure_escapes (added carol 10) 1
              (unlinked (starred [bob; carol]) config_down))
    as (_ & Hadd'); [done..|].
  destruct (store_failure_escapes (removed carol 10) 1
              (unlinked (starred [bob; carol]) config_down))
    as (Hrem' & _); [done..|].
  split_and!; auto.
Qed.

(** C7 as stated fails on the remove path: robot, a bot, removes its
    star from a linked message, leaving bob's and carol's; the remove
    listener processes the event and deletes the highlight message. *)
Lemma bot_removal_is_processed :
  from_bot (with_member (Some robot) (removed robot 10))
  ∧ ∃ w',
      starboard_on_reaction_remove (with_member (Some robot) (removed robot 10))
        (linked (starred [bob; carol]) healthy) = (Ok tt, w')
      ∧ journal w' = [ADelete 20 400]
      ∧ messages w' !! (20, 400) = None
      ∧ messages (linked (starred [bob; carol]) healthy) !! (20, 400)
        = Some (highlight (starred [bob; carol])).
Proof.
  split; [by exists robot|].
  eexists. split; [by vm_compute|]. split_and!; by vm_compute.
Qed.

(** C8 as stated fails on the remove path: the roster of a linked
    message cannot be paged; the listener logs the exception and leaves
    the highlight message where it is, while a count of 0 (the same
    message without reactions, fetched without failure) has it deleted. *)
Lemma failed_fetch_is_not_count_zero :
  fetch_fails (removed carol 10) config general
    (linked (starred [bob; carol]) roster_down) HTTPException
  ∧ (∃ w',
       starboard_on_reaction_remove (removed carol 10)
         (linked (starred [bob; carol]) roster_down) = (Ok tt, w')
       ∧ journal w' = [ALog LvlDebug site_remove (Some HTTPException)]
       ∧ messages w' !! (20, 400) = Some (highlight (starred [bob; carol])))
  ∧ (∃ w',
       count_reactions (removed carol 10) config (original bare)
         (linked bare healthy) = (Ok 0, linked bare healthy)
       ∧ starboard_on_reaction_remove (removed carol 10) (linked bare healthy)
         = (Ok tt, w')
       ∧ journal w' = [ADelete 20 400]
       ∧ messages w' !! (20, 400) = None).
Proof.
  split_and!.
  - right. eexists. split; by vm_compute.
  - eexists. split; [by vm_compute|]. split; by vm_compute.
  - eexists. split; [by vm_compute|]. split; [by vm_compute|]. split; by vm_compute.
Qed.

(** C3 as stated fails on the link: dave removes his star from a linked
    message, leaving bob's and carol's, 2 below the threshold of 3; the
    listener deletes highlight message 400, and the link of message 100
    in server 1 is still returned by the store, unchanged. *)
Lemma demoted_link_is_still_stored :
  qualifying_count_spec (original (starred [bob; carol])) star = 2
  ∧ ∃ w',
      starboard_on_reaction_remove (removed dave 10)
        (linked (starred [bob; carol]) healthy) = (Ok tt, w')
      ∧ messages w' !! (20, 400) = None
      ∧ links w' = links (linked (starred [bob; carol]) healthy)
      ∧ get_starboard_message_by_id 100 1 w'
        = (Ok (Some (link (starred [bob; carol]))), w').
Proof.
  split; [by vm_compute|].
  eexists. split; [by vm_compute|]. split_and!; by vm_compute.
Qed.

(** C4 as stated fails twice: a clear event on a linked message deletes
    highlight message 400 and leaves the link in the store, still
    returned for message 100 in server 1; and on a server whose
    configuration was removed the clear event looks nothing up: link
    and highlight message stay. *)
Lemma clear_keeps_link_and_needs_configuration :
  (∃ w',
     starboard_on_reaction_clear (removed dave 10) (linked bare healthy)
     = (Ok tt, w')
     ∧ messages w' !! (20, 400) = None
     ∧ get_starboard_message_by_id 100 1 w' = (Ok (Some (link bare)), w'))
  ∧ starboard_on_reaction_clear (removed dave 10) (Office.orphaned bare healthy)
    = (Ok tt, Office.orphaned bare healthy)
  ∧ links (Office.orphaned bare healthy) !! (100, 1) = Some (link bare)
  ∧ messages (Office.orphaned bare healthy) !! (20, 400) = Some (highlight bare).
Proof.
  split_and!; try by vm_compute.
  eexists. split; [by vm_compute|]. split; by vm_compute.
Qed.

(** ** The theorems at work on the concrete server *)

Lemma threshold_decides_promotion_witness :
  past_guards (added carol 10) 1 config general
    (unlinked (starred [bob; carol; dave]) healthy)
  ∧ counted (added carol 10) config general
      (unlinked (starred [bob; carol; dave]) healthy)
      (original (starred [bob; carol; dave])) 3
  ∧ starboard_on_reaction_add (added carol 10)
      (unlinked (starred [bob; carol; dave]) healthy)
    = create_or_update_starboard_message highlights
        (original (starred [bob; carol; dave])) 3
        (unlinked (starred [bob; carol; dave]) healthy).
Proof.
  assert (Hp : past_guards (added carol 10) 1 config general
                 (unlinked (starred [bob; carol; dave]) healthy))
    by (split_and!; by vm_compute).
  assert (Hc : counted (added carol 10) config general
                 (unlinked (starred [bob; carol; dave]) healthy)
                 (original (starred [bob; carol; dave])) 3)
    by (split; by vm_compute).
  split_and!; [exact Hp|exact Hc|].
  apply (threshold_decides_promotion _ _ _ _ _ _ _ Hp Hc).
  - by vm_compute.
  - by vm_compute.
  - by exists carol.
Defined.

Lemma removal_below_threshold_demotes_witness :
  linked_live highlights (original (starred [bob; carol]))
    (linked (starred [bob; carol]) healthy)
    (link (starred [bob; carol])) (highlight (starred [bob; carol]))
  ∧ qualifying_count_spec (original (starred [bob; carol])) star = 2
  ∧ starboard_on_reaction_remove (removed dave 10)
      (linked (starred [bob; carol]) healthy)
    = (Ok tt, after_delete (message_in highlights 400 (highlight (starred [bob; carol])))
                (linked (starred [bob; carol]) healthy)).
Proof.
  assert (Hl : linked_live highlights (original (starred [bob; carol]))
                 (linked (starred [bob; carol]) healthy)
                 (link (starred [bob; carol])) (highlight (starred [bob; carol])))
    by (exists 1; split_and!; by vm_compute).
  split; [exact Hl|]. split; [by vm_compute|].
  apply (removal_below_threshold_demotes (removed dave 10) 1 config general
           (linked (starred [bob; carol]) healthy)
           (original (starred [bob; carol])) highlights
           (link (starred [bob; carol])) (highlight (starred [bob; carol]))).
  - intros o. reflexivity.
  - split_and!; by vm_compute.
  - split; by vm_compute.
  - by vm_compute.
  - by vm_compute.
  - exact Hl.
Defined.

Lemma clear_demotes_when_configured_witness :
  linked_live highlights (original bare) (linked bare healthy)
    (link bare) (highlight bare)
  ∧ starboard_on_reaction_clear (removed dave 10) (linked bare healthy)
    = (Ok tt, after_delete (message_in highlights 400 (highlight bare))
                (linked bare healthy)).
Proof.
  assert (Hl : linked_live highlights (original bare) (linked bare healthy)
                 (link bare) (highlight bare))
    by (exists 1; split_and!; by vm_compute).
  split; [exact Hl|].
  destruct (clear_demotes_when_configured (removed dave 10) 1 general
              (linked bare healthy) (original bare)) as (_ & _ & H).
  - intros o. reflexivity.
  - by vm_compute.
  - by vm_compute.
  - by vm_compute.
  - apply (H config highlights (link bare) (highlight bare)).
    + by vm_compute.
    + by vm_compute.
    + exact Hl.
Defined.

Lemma upsert_is_idempotent_witness :
  no_faults (unlinked (starred [bob; carol; dave]) healthy)
  ∧ ∃ w1 w2 h,
      create_or_update_starboard_message highlights
        (original (starred [bob; carol; dave])) 3
        (unlinked (starred [bob; carol; dave]) healthy) = (Ok tt, w1)
      ∧ create_or_update_starboard_message highlights
          (original (starred [bob; carol; dave])) 3 w1 = (Ok tt, w2)
      ∧ sends (journal w2) = sends (journal w1)
      ∧ link_starboard_message_id <$> links w2 !! (100, 1) = Some h
      ∧ is_Some (messages w2 !! (20, h)).
Proof.
  assert (Hnf : no_faults (unlinked (starred [bob; carol; dave]) healthy))
    by (intros o; reflexivity).
  split; [exact Hnf|].
  destruct (upsert_is_idempotent highlights
              (original (starred [bob; carol; dave])) 3 1 config
              (unlinked (starred [bob; carol; dave]) healthy) Hnf
              eq_refl eq_refl)
    as (_ & w1 & w2 & h & H1 & H2 & _ & _ & H3 & _ & H4 & H5).
  exists w1, w2, h. split_and!; assumption.
Defined.

Lemma stale_link_heals_witness :
  linked_stale highlights (original (starred [bob; carol; dave]))
    (stale (starred [bob; carol; dave]) healthy) (link (starred [bob; carol; dave]))
  ∧ ∃ w',
      starboard_on_reaction_add (added carol 10)
        (stale (starred [bob; carol; dave]) healthy) = (Ok tt, w')
      ∧ is_Some (messages w' !! (20, 500))
      ∧ link_starboard_message_id <$> links w' !! (100, 1) = Some 500.
Proof.
  assert (Hl : linked_stale highlights (original (starred [bob; carol; dave]))
                 (stale (starred [bob; carol; dave]) healthy)
                 (link (starred [bob; carol; dave])))
    by (exists 1; split_and!; by vm_compute).
  split; [exact Hl|].
  destruct (stale_link_heals (added carol 10) 1 config general
              (stale (starred [bob; carol; dave]) healthy)
              (original (starred [bob; carol; dave])) 3 highlights
              (link (starred [bob; carol; dave])))
    as (_ & _ & _ & Hadd & _ & Hm & Hlink).
  - intros o. reflexivity.
  - split_and!; by vm_compute.
  - reflexivity.
  - split; by vm_compute.
  - by vm_compute.
  - by vm_compute.
  - exact Hl.
  - eexists. split; [apply Hadd; by exists carol|]. split.
    + eexists. exact Hm.
    + exact Hlink.
Defined.

Lemma existing_lookup_total_witness :
  message_guild (original (starred [bob; carol; dave])) = Some 1
  ∧ get_existing_starboard_message highlights (original (starred [bob; carol; dave]))
      (linked (starred [bob; carol; dave]) links_down)
    = (Ok None, logged LvlError site_fetch (Some DatabaseError)
                  (linked (starred [bob; carol; dave]) links_down)).
Proof.
  split; [reflexivity|].
  destruct (existing_lookup_total highlights (original (starred [bob; carol; dave])) 1
              (linked (starred [bob; carol; dave]) links_down) eq_refl)
    as (_ & Hdown & _).
  apply Hdown. reflexivity.
Defined.

Lemma ignored_events_change_nothing_witness :
  from_bot (added robot 10)
  ∧ starboard_on_reaction_add (added robot 10)
      (unlinked (starred [bob; carol; robot]) healthy)
    = (Ok tt, unlinked (starred [bob; carol; robot]) healthy).
Proof.
  assert (Hb : from_bot (added robot 10)) by (by exists robot).
  split; [exact Hb|].
  destruct (ignored_events_change_nothing (added robot 10)
              (unlinked (starred [bob; carol; robot]) healthy)) as (Hadd & _ & _).
  apply Hadd. right. right. left. exact Hb.
Defined.

Lemma fetch_failure_drops_event_witness :
  past_guards (removed dave 10) 1 config general
    (linked (starred [bob; carol]) roster_down)
  ∧ fetch_fails (removed dave 10) config general
      (linked (starred [bob; carol]) roster_down) HTTPException
  ∧ starboard_on_reaction_remove (removed dave 10)
      (linked (starred [bob; carol]) roster_down)
    = (Ok tt, logged LvlDebug site_remove (Some HTTPException)
                (linked (starred [bob; carol]) roster_down)).
Proof.
  assert (Hp : past_guards (removed dave 10) 1 config general
                 (linked (starred [bob; carol]) roster_down))
    by (split_and!; by vm_compute).
  assert (Hf : fetch_fails (removed dave 10) config general
                 (linked (starred [bob; carol]) roster_down) HTTPException)
    by (right; eexists; split; by vm_compute).
  split_and!; [exact Hp|exact Hf|].
  destruct (fetch_failure_drops_event _ _ _ _ _ _ Hp Hf) as (Hrem & _).
  exact Hrem.
Defined.

(** ** What the cog leaves alone *)

Section Respects.
Context (R : relation World) `{!PreOrder R}.

Lemma respects_ret {A} (a : A) : respects R (ret a).
Proof. intros w r w' [= _ <-]. reflexivity. Qed.

Lemma respects_raise {A} e : respects R (raise (A := A) e).
Proof. intros w r w' [= _ <-]. reflexivity. Qed.

Lemma respects_gets {A} (f : World → A) : respects R (gets f).
Proof. intros w r w' [= _ <-]. reflexivity. Qed.

Lemma respects_may_fail o e : respects R (may_fail o e).
Proof.
  intros w r w'. unfold may_fail.
  destruct (faults w o); intros [= _ <-]; reflexivity.
Qed.

(** Sequencing, with what is known of the value handed on. *)
Lemma respects_bind_post {A B} (Q : A → Prop) (c : M A) (k : A → M B) :
  (∀ w a w', c w = (Ok a, w') → Q a) →
  respects R c → (∀ a, Q a → respects R (k a)) → respects R (bind c k).
Proof.
  intros HQ Hc Hk w r w'. unfold bind.
  destruct (c w) as [[a|e] w1] eqn:Hrun.
  - intros Hrest. transitivity w1; [by eapply Hc|].
    eapply Hk; [by eapply HQ|done].
  - intros [= _ <-]. by eapply Hc.
Qed.

Lemma respects_bind {A B} (c : M A) (k : A → M B) :
  respects R c → (∀ a, respects R (k a)) → respects R (bind c k).
Proof.
  intros Hc Hk. apply (respects_bind_post (λ _, True)); auto.
Qed.

Lemma respects_try_except {A} (c : M A) (h : Exn → M A) :
  respects R c → (∀ e, respects R (h e)) → respects R (try_except c h).
Proof.
  intros Hc Hh w r w'. unfold try_except.
  destruct (c w) as [[a|e] w1] eqn:Hrun.
  - intros [= _ <-]. by eapply Hc.
  - intros Hrest. transitivity w1; [by eapply Hc|by eapply Hh].
Qed.

Lemma respects_record a : allows_log R → respects R (record a).
Proof. intros Hlog w r w' [= _ <-]. apply Hlog. Qed.

Lemma respects_fetch_message c i : respects R (fetch_message c i).
Proof.
  intros w r w' Hrun. rewrite (fetch_message_world _ _ _ _ _ Hrun). reflexivity.
Qed.

Lemma respects_count_reactions p sb m : respects R (count_reactions p sb m).
Proof.
  intros w r w' Hrun. rewrite (count_reactions_world _ _ _ _ _ _ Hrun). reflexivity.
Qed.

Lemma respects_get_config g : respects R (get_starboard_by_guild_id g).
Proof.
  apply respects_bind; [apply respects_may_fail|intros _; apply respects_gets].
Qed.

Lemma respects_channel_send c e :
  allows_log R → allows_send R c → respects R (channel_send c e).
Proof.
  intros Hlog Hsend. unfold channel_send.
  apply respects_bind; [apply respects_may_fail|intros _].
  intros w r w'. mrun. intros [= _ <-].
  etransitivity; [apply Hsend|].
  apply (Hlog _ (set_next_id _ (set_messages _ w))).
Qed.

Lemma respects_message_edit h e :
  allows_log R → allows_edit R (message_channel h) → respects R (message_edit h e).
Proof.
  intros Hlog Hedit. unfold message_edit.
  apply respects_bind; [apply respects_may_fail|intros _].
  intros w r w'. mrun.
  destruct (messages w !! (message_channel h, message_id h)) as [cur|] eqn:Hm;
    mrun; intros [= _ <-]; [|reflexivity].
  etransitivity; [apply (Hedit (message_id h) (with_embed e cur)); by rewrite Hm|].
  apply (Hlog _ (set_messages _ w)).
Qed.

Lemma respects_message_delete h :
  allows_log R → allows_delete R → respects R (message_delete h).
Proof.
  intros Hlog Hdel. unfold message_delete.
  apply respects_bind; [apply respects_may_fail|intros _].
  intros w r w'. mrun.
  destruct (messages w !! (message_channel h, message_id h)) as [cur|];
    mrun; intros [= _ <-]; [|reflexivity].
  etransitivity; [apply Hdel|]. apply (Hlog _ (set_messages _ w)).
Qed.

Lemma respects_put l :
  allows_log R → allows_put R (link_message_id l, link_message_guild_id l) →
  respects R (put_starboard_message l).
Proof.
  intros Hlog Hput. unfold put_starboard_message.
  apply respects_bind; [apply respects_may_fail|intros _].
  intros w r w'. mrun. intros [= _ <-].
  etransitivity; [apply Hput|]. apply (Hlog _ (set_links _ w)).
Qed.

(** The highlight message [get_existing_starboard_message] finds is a
    message of the channel it was asked about. *)
Lemma existing_in_channel sc m w h w' :
  get_existing_starboard_message sc m w = (Ok (Some h), w') →
  message_channel h = channel_id sc.
Proof.
  unfold get_existing_starboard_message.
  destruct (message_guild m) as [g|]; [|done].
  unfold try_except, bind at 1.
  destruct (get_starboard_message_by_id _ _ w) as [[[l|]|e] w1]; mrun; try done.
  unfold bind.
  destruct (fetch_message sc (link_starboard_message_id l) w1) as [[h'|e] w2] eqn:Hf.
  - destruct (fetch_message_inv _ _ _ _ _ Hf) as (d & -> & _).
    by intros [= <- _].
  - done.
Qed.

Lemma respects_existing sc m :
  allows_log R → respects R (get_existing_starboard_message sc m).
Proof.
  intros Hlog. unfold get_existing_starboard_message.
  destruct (message_guild m) as [g|]; [|apply respects_raise].
  apply respects_try_except.
  - apply respects_bind.
    { apply respects_bind; [apply respects_may_fail|intros _; apply respects_gets]. }
    intros [l|]; [|apply respects_ret].
    apply respects_bind; [apply respects_fetch_message|intros ?; apply respects_ret].
  - intros e. apply respects_bind; [by apply respects_record|intros _; apply respects_ret].
Qed.

Lemma respects_upsert sc m n :
  allows_log R → allows_send R sc → allows_edit R (channel_id sc) →
  (∀ g, message_guild m = Some g → allows_put R (message_id m, g)) →
  respects R (create_or_update_starboard_message sc m n).
Proof.
  intros Hlog Hsend Hedit Hput. unfold create_or_update_starboard_message.
  destruct (message_guild m) as [g|] eqn:Hg; [|by apply respects_record].
  apply respects_try_except; [|intros e; by apply respects_record].
  apply respects_bind; [apply respects_get_config|].
  intros [sb|]; [|apply respects_ret].
  apply (respects_bind_post
           (λ r, ∀ h, r = Some h → message_channel h = channel_id sc)).
  { intros w [h|] w' Hrun h' [= <-]. by eapply existing_in_channel. }
  { by apply respects_existing. }
  intros existing Hex. apply respects_bind.
  - destruct existing as [h|]; [|by apply respects_channel_send].
    apply respects_bind; [|intros _; apply respects_ret].
    apply respects_message_edit; [done|]. by rewrite (Hex h eq_refl).
  - intros hm. apply respects_bind; [apply respects_gets|intros t].
    apply respects_put; [done|]. by apply Hput.
Qed.

Lemma respects_add p :
  allows_log R → (∀ c, allows_send R c) → (∀ c, allows_edit R c) →
  (∀ k, allows_put R k) →
  respects R (starboard_on_reaction_add p).
Proof.
  intros Hlog Hsend Hedit Hput. unfold starboard_on_reaction_add.
  destruct (truthy_id _) as [g|]; [|apply respects_ret].
  destruct (payload_member p) as [member|]; [|apply respects_ret].
  destruct (user_bot member); [apply respects_ret|].
  apply respects_bind; [apply respects_get_config|].
  intros [sb|]; [|apply respects_ret].
  case_decide; [|apply respects_ret].
  apply respects_bind; [apply respects_gets|intros ch].
  destruct (as_text_channel ch) as [c|]; [|apply respects_raise].
  apply respects_try_except; [|intros e; by apply respects_record].
  unfold reaction_add_try.
  apply respects_bind; [apply respects_fetch_message|intros m].
  apply respects_bind; [apply respects_count_reactions|intros n].
  case_decide; [|apply respects_ret].
  apply respects_bind; [apply respects_gets|intros sch].
  destruct (as_text_channel sch) as [sc|]; [|apply respects_ret].
  apply respects_upsert; auto.
Qed.

Lemma respects_demote sc m :
  allows_log R → allows_delete R →
  respects R (let* existing := get_existing_starboard_message sc m in
              match existing with
              | Some h => message_delete h
              | None => ret tt
              end).
Proof.
  intros Hlog Hdel. apply respects_bind; [by apply respects_existing|].
  intros [h|]; [by apply respects_message_delete|apply respects_ret].
Qed.

Lemma respects_remove p :
  allows_log R → (∀ c, allows_send R c) → (∀ c, allows_edit R c) →
  (∀ k, allows_put R k) → allows_delete R →
  respects R (starboard_on_reaction_remove p).
Proof.
  intros Hlog Hsend Hedit Hput Hdel. unfold starboard_on_reaction_remove.
  destruct (truthy_id _) as [g|]; [|apply respects_ret].
  apply respects_bind; [apply respects_get_config|].
  intros [sb|]; [|apply respects_ret].
  case_decide; [|apply respects_ret].
  apply respects_bind; [apply respects_gets|intros ch].
  destruct (as_text_channel ch) as [c|]; [|apply respects_raise].
  apply respects_try_except; [|intros e; by apply respects_record].
  unfold reaction_remove_try.
  apply respects_bind; [apply respects_fetch_message|intros m].
  apply respects_bind; [apply respects_count_reactions|intros n].
  apply respects_bind; [apply respects_gets|intros sch].
  destruct (as_text_channel sch) as [sc|]; [|apply respects_ret].
  case_decide; [by apply respects_demote|].
  apply respects_upsert; auto.
Qed.

Lemma respects_clear p :
  allows_log R → allows_delete R →
  respects R (starboard_on_reaction_clear p).
Proof.
  intros Hlog Hdel. unfold starboard_on_reaction_clear.
  destruct (truthy_id _) as [g|]; [|apply respects_ret].
  apply respects_try_except; [|intros e; by apply respects_record].
  unfold reaction_clear_try.
  apply respects_bind; [apply respects_gets|intros ch].
  destruct (as_text_channel ch) as [c|]; [|apply respects_raise].
  apply respects_bind; [apply respects_fetch_message|intros m].
  apply respects_bind; [apply respects_get_config|].
  intros [sb|]; [|apply respects_ret].
  apply respects_bind; [apply respects_gets|intros sch].
  destruct (as_text_channel sch) as [sc|]; [|apply respects_ret].
  by apply respects_demote.
Qed.
End Respects.

#[local] Instance untouched_preorder : PreOrder untouched.
Proof. split; [done|]. intros w1 w2 w3 H1 H2. unfold untouched in *. congruence. Qed.

#[local] Instance same_setting_preorder : PreOrder same_setting.
Proof.
  split; [done|].
  intros w1 w2 w3 (?&?&?&?&?) (?&?&?&?&?). unfold same_setting. split_and!; congruence.
Qed.

#[local] Instance keeps_messages_preorder : PreOrder keeps_messages.
Proof. split; [by intros w k|]. intros w1 w2 w3 H1 H2 k Hk. by apply H2, H1. Qed.

#[local] Instance keeps_links_preorder : PreOrder keeps_links.
Proof. split; [by intros w k|]. intros w1 w2 w3 H1 H2 k Hk. by apply H2, H1. Qed.

#[local] Instance only_removes_preorder : PreOrder only_removes.
Proof.
  split; [done|].
  intros w1 w2 w3 (Hm1 & Hl1 & Hn1) (Hm2 & Hl2 & Hn2). split_and!; [|congruence..].
  by transitivity (messages w2).
Qed.

#[local] Instance links_outside_preorder k : PreOrder (links_outside k).
Proof.
  split; [by intros w k'|].
  intros w1 w2 w3 H1 H2 k' Hk. by rewrite (H2 k' Hk), (H1 k' Hk).
Qed.

#[local] Instance messages_outside_preorder c : PreOrder (messages_outside c).
Proof.
  split; [by intros w c' i|].
  intros w1 w2 w3 H1 H2 c' i Hc. by rewrite (H2 c' i Hc), (H1 c' i Hc).
Qed.

Lemma insert_keeps `{Countable K} {V} (m : gmap K V) k v k' :
  is_Some (m !! k') → is_Some (<[k := v]> m !! k').
Proof.
  intros Hk. destruct (decide (k = k')) as [->|Hne].
  - rewrite lookup_insert_eq. by eexists.
  - by rewrite lookup_insert_ne.
Qed.

(** X1: no listener, and no call of [create_or_update_starboard_message],
    writes the configuration store or the channel cache, whatever the
    event, the world and the failures it meets. *)
Theorem configuration_is_read_only p sc m n w r w' :
  starboard_on_reaction_add p w = (r, w')
  ∨ starboard_on_reaction_remove p w = (r, w')
  ∨ starboard_on_reaction_clear p w = (r, w')
  ∨ create_or_update_starboard_message sc m n w = (r, w') →
  configs w' = configs w ∧ channels w' = channels w.
Proof.
  assert (Hlog : allows_log same_setting) by done.
  assert (Hsend : ∀ c, allows_send same_setting c) by done.
  assert (Hedit : ∀ c, allows_edit same_setting c) by done.
  assert (Hput : ∀ k, allows_put same_setting k) by done.
  assert (Hdel : allows_delete same_setting) by done.
  intros [Hrun|[Hrun|[Hrun|Hrun]]].
  - by destruct (respects_add same_setting p Hlog Hsend Hedit Hput _ _ _ Hrun) as (?&?&_).
  - by destruct (respects_remove same_setting p Hlog Hsend Hedit Hput Hdel _ _ _ Hrun)
      as (?&?&_).
  - by destruct (respects_clear same_setting p Hlog Hdel _ _ _ Hrun) as (?&?&_).
  - by destruct (respects_upsert same_setting sc m n Hlog (Hsend sc)
                   (Hedit (channel_id sc)) (λ g _, Hput _) _ _ _ Hrun) as (?&?&_).
Qed.

(** X2: the add listener and [create_or_update_starboard_message] never
    delete: every message that was there before the call is there after
    it, in every channel. *)
Theorem promotion_never_deletes p sc m n w r w' k :
  starboard_on_reaction_add p w = (r, w')
  ∨ create_or_update_starboard_message sc m n w = (r, w') →
  is_Some (messages w !! k) → is_Some (messages w' !! k).
Proof.
  assert (Hlog : allows_log keeps_messages) by (by intros a w0 k0).
  assert (Hsend : ∀ c, allows_send keeps_messages c).
  { intros c d w0 k0. cbn. apply insert_keeps. }
  assert (Hedit : ∀ c, allows_edit keeps_messages c).
  { intros c i d w0 _ k0. cbn. apply insert_keeps. }
  assert (Hput : ∀ k0, allows_put keeps_messages k0) by (by intros k0 l w0 k1).
  intros [Hrun|Hrun].
  - exact (respects_add keeps_messages p Hlog Hsend Hedit Hput _ _ _ Hrun k).
  - exact (respects_upsert keeps_messages sc m n Hlog (Hsend sc)
             (Hedit (channel_id sc)) (λ g _, Hput _) _ _ _ Hrun k).
Qed.

(** X3: no listener ever removes a row of the link store: a link that
    was there before an add, remove or clear event is there after it,
    also when the event deleted the highlight message. *)
Theorem link_rows_are_never_removed p w r w' k :
  starboard_on_reaction_add p w = (r, w')
  ∨ starboard_on_reaction_remove p w = (r, w')
  ∨ starboard_on_reaction_clear p w = (r, w') →
  is_Some (links w !! k) → is_Some (links w' !! k).
Proof.
  assert (Hlog : allows_log keeps_links) by (by intros a w0 k0).
  assert (Hsend : ∀ c, allows_send keeps_links c) by (by intros c d w0 k0).
  assert (Hedit : ∀ c, allows_edit keeps_links c) by (by intros c i d w0 _ k0).
  assert (Hput : ∀ k0, allows_put keeps_links k0).
  { intros k0 l w0 k1. cbn. apply insert_keeps. }
  assert (Hdel : allows_delete keeps_links) by (by intros k0 w0 k1).
  intros [Hrun|[Hrun|Hrun]].
  - exact (respects_add keeps_links p Hlog Hsend Hedit Hput _ _ _ Hrun k).
  - exact (respects_remove keeps_links p Hlog Hsend Hedit Hput Hdel _ _ _ Hrun k).
  - exact (respects_clear keeps_links p Hlog Hdel _ _ _ Hrun k).
Qed.

(** X4: the clear listener sends nothing, edits nothing and writes no
    link: the messages left after it are messages that were there,
    unchanged, the link store is as before and no message id was used. *)
Theorem clear_only_removes p w r w' :
  starboard_on_reaction_clear p w = (r, w') →
  messages w' ⊆ messages w ∧ links w' = links w ∧ next_id w' = next_id w.
Proof.
  assert (Hlog : allows_log only_removes) by done.
  assert (Hdel : allows_delete only_removes).
  { intros k w0. split_and!; [|done..]. cbn. apply delete_subseteq. }
  intros Hrun. exact (respects_clear only_removes p Hlog Hdel _ _ _ Hrun).
Qed.

(** X5: [create_or_update_starboard_message] touches one link and one
    channel: every link but the one of the original message, and every
    message outside the highlight channel it was given, is as before. *)
Theorem upsert_is_local sc m n w r w' :
  create_or_update_starboard_message sc m n w = (r, w') →
  (∀ k g, message_guild m = Some g → k ≠ (message_id m, g) →
          links w' !! k = links w !! k)
  ∧ (message_guild m = None → links w' = links w)
  ∧ (∀ c i, c ≠ channel_id sc → messages w' !! (c, i) = messages w !! (c, i)).
Proof.
  intros Hrun. split_and!.
  - intros k g Hg Hk.
    refine (respects_upsert (links_outside (message_id m, g)) sc m n _ _ _ _
              _ _ _ Hrun k Hk).
    + by intros a w0 k0.
    + by intros d w0 k0.
    + by intros i d w0 _ k0.
    + intros g' Hg' l w0 k0 Hk0. cbn.
      rewrite Hg in Hg'. injection Hg' as <-. by rewrite lookup_insert_ne.
  - intros Hg. unfold create_or_update_starboard_message in Hrun.
    rewrite Hg in Hrun. by injection Hrun as _ <-.
  - intros c i Hc.
    refine (respects_upsert (messages_outside (channel_id sc)) sc m n _ _ _ _
              _ _ _ Hrun c i Hc).
    + by intros a w0 c0 i0.
    + intros d w0 c0 i0 Hc0. cbn. rewrite lookup_insert_ne; [done|congruence].
    + intros i0 d w0 _ c0 i1 Hc0. cbn. rewrite lookup_insert_ne; [done|congruence].
    + by intros g _ l w0 c0 i0.
Qed.

(** ** What the cog raises *)

Lemma try_logged_returns (c : M unit) (h : Exn → Action) w :
  ∃ w', try_except c (λ e, record (h e)) w = (Ok tt, w').
Proof.
  unfold try_except. destruct (c w) as [[[]|e] w1]; by eexists.
Qed.

(** X6: the clear listener returns on every event and world.  The add
    and remove listeners let two exceptions out, and only before they
    have done anything: [AssertionError] when the channel of the event
    is not a cached text channel, [DatabaseError] when the configuration
    store fails. *)
Theorem listeners_raise_only_before_acting p w :
  (∃ w', starboard_on_reaction_clear p w = (Ok tt, w'))
  ∧ ∀ e w',
      starboard_on_reaction_add p w = (Raise e, w')
      ∨ starboard_on_reaction_remove p w = (Raise e, w') →
      w' = w
      ∧ ((e = AssertionError
          ∧ as_text_channel (channels w !! payload_channel_id p) = None)
         ∨ (e = DatabaseError
            ∧ ∃ g, truthy_id (payload_guild_id p) = Some g
                   ∧ faults w (OpGetConfig g) = true)).
Proof.
  split.
  { unfold starboard_on_reaction_clear.
    destruct (truthy_id _) as [g|]; [|by eexists].
    apply (try_logged_returns _ (λ e, ALog LvlError site_clear (Some e))). }
  assert (Hguarded : ∀ (body : StarboardConfig → Channel → M unit) site g e w',
    (let* starboard := get_starboard_by_guild_id g in
     match starboard with
     | None => ret tt
     | Some starboard =>
         if decide (PartialEmoji_str (payload_emoji p) = starboard_emoji starboard)
         then
           let* channel := bot_get_channel (payload_channel_id p) in
           match as_text_channel channel with
           | None => raise AssertionError
           | Some channel =>
               try_except (body starboard channel) (λ e, logger_debug site (Some e))
           end
         else ret tt
     end) w = (Raise e, w') →
    w' = w
    ∧ ((e = AssertionError
        ∧ as_text_channel (channels w !! payload_channel_id p) = None)
       ∨ (e = DatabaseError ∧ faults w (OpGetConfig g) = true))).
  { intros body site g e w'.
    destruct (faults w (OpGetConfig g)) eqn:Hst.
    { rewrite (bind_raise _ _ _ _ _ (get_starboard_by_guild_id_fault g w Hst)).
      intros [= <- <-]. auto. }
    rewrite (bind_ok _ _ _ _ _ (get_starboard_by_guild_id_ok g w Hst)).
    destruct (configs w !! g) as [sb|]; [|done].
    case_decide; [|done].
    unfold bind at 1, bot_get_channel, gets.
    destruct (as_text_channel (channels w !! payload_channel_id p)) as [c|] eqn:Hc.
    - destruct (try_logged_returns (body sb c)
                  (λ e, ALog LvlDebug site (Some e)) w) as [w1 Hrun].
      unfold logger_debug. rewrite Hrun. done.
    - intros [= <- <-]. auto. }
  intros e w' [Hrun|Hrun].
  - unfold starboard_on_reaction_add in Hrun.
    destruct (truthy_id _) as [g|] eqn:Hg; [|done].
    destruct (payload_member p) as [member|]; [|done].
    destruct (user_bot member); [done|].
    destruct (Hguarded _ _ _ _ _ Hrun) as [-> [?|[-> ?]]]; eauto 10.
  - unfold starboard_on_reaction_remove in Hrun.
    destruct (truthy_id _) as [g|] eqn:Hg; [|done].
    destruct (Hguarded _ _ _ _ _ Hrun) as [-> [?|[-> ?]]]; eauto 10.
Qed.

(** X7: [create_or_update_starboard_message] returns on every input and
    world, whatever fails inside it; [get_existing_starboard_message]
    raises for one input only, a message without a guild, with the
    [AssertionError] of its first line and before it did anything. *)
Theorem helpers_contain_their_failures sc m n w :
  (∃ w', create_or_update_starboard_message sc m n w = (Ok tt, w'))
  ∧ ∀ e w', get_existing_starboard_message sc m w = (Raise e, w') →
            message_guild m = None ∧ e = AssertionError ∧ w' = w.
Proof.
  split; [apply upsert_never_raises|].
  intros e w' Hrun. destruct (message_guild m) as [g|] eqn:Hg.
  - destruct (existing_never_raises sc m g w Hg) as (r & w1 & Hok & _). congruence.
  - unfold get_existing_starboard_message in Hrun. rewrite Hg in Hrun.
    by injection Hrun as <- <-.
Qed.

(** ** [create_or_update_starboard_message] at its edges *)

(** X8: without a guild on the message, without a configuration for its
    guild, or with a configuration store that fails,
    [create_or_update_starboard_message] sends, edits and writes
    nothing: the world is as before, but for an error line in the first
    and the last case. *)
Theorem upsert_without_configuration sc m n w :
  (message_guild m = None →
   create_or_update_starboard_message sc m n w
   = (Ok tt, logged LvlError site_no_guild None w))
  ∧ (∀ g, message_guild m = Some g → faults w (OpGetConfig g) = false →
          configs w !! g = None →
          create_or_update_starboard_message sc m n w = (Ok tt, w))
  ∧ (∀ g, message_guild m = Some g → faults w (OpGetConfig g) = true →
          create_or_update_starboard_message sc m n w
          = (Ok tt, logged LvlError site_upsert (Some DatabaseError) w)).
Proof.
  unfold create_or_update_starboard_message. split_and!.
  - by intros ->.
  - intros g -> Hst Hcfg. apply try_except_ok.
    by rewrite (bind_ok _ _ _ _ _ (get_starboard_by_guild_id_ok g w Hst)), Hcfg.
  - intros g -> Hst. erewrite try_except_raise; [reflexivity|].
    by rewrite (bind_raise _ _ _ _ _ (get_starboard_by_guild_id_fault g w Hst)).
Qed.

Section UpsertFailures.
Variables (sc : Channel) (m : Message) (n g : Z) (sb : StarboardConfig) (w : World).
Hypothesis Hguild : message_guild m = Some g.
Hypothesis Hstore : faults w (OpGetConfig g) = false.
Hypothesis Hconfig : configs w !! g = Some sb.

Lemma upsert_send_fails w1 :
  get_existing_starboard_message sc m w = (Ok None, w1) →
  faults w1 (OpSend (channel_id sc)) = true →
  create_or_update_starboard_message sc m n w
  = (Ok tt, logged LvlError site_upsert (Some HTTPException) w1).
Proof.
  intros Hex Hs. unfold create_or_update_starboard_message. rewrite Hguild.
  erewrite try_except_raise; [reflexivity|].
  rewrite (bind_ok _ _ _ _ _ (get_starboard_by_guild_id_ok g w Hstore)), Hconfig.
  rewrite (bind_ok _ _ _ _ _ Hex).
  by rewrite (bind_raise _ _ _ _ _ (channel_send_fault sc _ w1 Hs)).
Qed.

Lemma upsert_edit_fails h :
  get_existing_starboard_message sc m w = (Ok (Some h), w) →
  faults w (OpEdit (message_channel h) (message_id h)) = true →
  create_or_update_starboard_message sc m n w
  = (Ok tt, logged LvlError site_upsert (Some HTTPException) w).
Proof.
  intros Hex He. unfold create_or_update_starboard_message. rewrite Hguild.
  erewrite try_except_raise; [reflexivity|].
  rewrite (bind_ok _ _ _ _ _ (get_starboard_by_guild_id_ok g w Hstore)), Hconfig.
  rewrite (bind_ok _ _ _ _ _ Hex).
  apply bind_raise. apply bind_raise. unfold message_edit.
  by rewrite (bind_raise _ _ _ _ _ (may_fail_raise _ _ _ He)).
Qed.

Lemma upsert_put_fails w1 :
  get_existing_starboard_message sc m w = (Ok None, w1) →
  faults w1 (OpSend (channel_id sc)) = false →
  faults w1 (OpPutLink (message_id m) g) = true →
  create_or_update_starboard_message sc m n w
  = (Ok tt, logged LvlError site_upsert (Some DatabaseError)
              (after_send sc (starboard_embed sb m n) w1)).
Proof.
  intros Hex Hs Hp. unfold create_or_update_starboard_message. rewrite Hguild.
  erewrite try_except_raise; [reflexivity|].
  rewrite (bind_ok _ _ _ _ _ (get_starboard_by_guild_id_ok g w Hstore)), Hconfig.
  rewrite (bind_ok _ _ _ _ _ Hex).
  rewrite (bind_ok _ _ _ _ _ (channel_send_ok sc _ w1 Hs)).
  unfold bind at 1, gets. by apply put_starboard_message_fault.
Qed.
End UpsertFailures.

(** X9: when the send of a new highlight message fails, or the edit of
    the live one, [create_or_update_starboard_message] stops there: the
    exception is logged, and the messages and the link store, with the
    star count it holds, are as before. *)
Theorem upsert_aborts_before_link sc m n g sb w :
  message_guild m = Some g →
  faults w (OpGetConfig g) = false →
  configs w !! g = Some sb →
  faults w (OpGetLink (message_id m) g) = false →
  (links w !! (message_id m, g) = None →
   faults w (OpSend (channel_id sc)) = true →
   create_or_update_starboard_message sc m n w
   = (Ok tt, logged LvlError site_upsert (Some HTTPException) w))
  ∧ (∀ l d, links w !! (message_id m, g) = Some l →
            faults w (OpFetchMessage (channel_id sc) (link_starboard_message_id l))
            = false →
            messages w !! (channel_id sc, link_starboard_message_id l) = Some d →
            faults w (OpEdit (channel_id sc) (link_starboard_message_id l)) = true →
            create_or_update_starboard_message sc m n w
            = (Ok tt, logged LvlError site_upsert (Some HTTPException) w))
  ∧ ∀ e, messages (logged LvlError site_upsert e w) = messages w
         ∧ links (logged LvlError site_upsert e w) = links w.
Proof.
  intros Hg Hst Hcfg Hgl. split_and!; [| |done].
  - intros Hl Hs.
    apply (upsert_send_fails sc m n g sb w Hg Hst Hcfg w); [|done].
    by apply (existing_unlinked sc m g w Hg).
  - intros l d Hl Hf Hm He.
    apply (upsert_edit_fails sc m n g sb w Hg Hst Hcfg
             (message_in sc (link_starboard_message_id l) d)); [|done].
    apply (existing_live sc m g w Hg l); [done..|]. by apply fetch_message_found.
Qed.

(** X10: when the link store cannot be written, the highlight message
    that was just sent stays in the channel without a link; the next
    call finds no link, and sends a second highlight message for the
    same original. *)
Theorem unwritten_link_duplicates sc m n g sb w :
  message_guild m = Some g →
  configs w !! g = Some sb →
  links w !! (message_id m, g) = None →
  (∀ o, faults w o = match o with OpPutLink _ _ => true | _ => false end) →
  let e := starboard_embed sb m n in
  let w1 := logged LvlError site_upsert (Some DatabaseError) (after_send sc e w) in
  let w2 := logged LvlError site_upsert (Some DatabaseError) (after_send sc e w1) in
  create_or_update_starboard_message sc m n w = (Ok tt, w1)
  ∧ create_or_update_starboard_message sc m n w1 = (Ok tt, w2)
  ∧ links w2 = links w
  ∧ sends (journal w2)
    = (channel_id sc, next_id w + 1) :: (channel_id sc, next_id w)
        :: sends (journal w)
  ∧ messages w2 !! (channel_id sc, next_id w + 1) = Some (sent_data e w).
Proof.
  intros Hg Hcfg Hl Hf e w1 w2.
  assert (Hrun : ∀ w0, faults w0 = faults w → configs w0 = configs w →
                       links w0 = links w →
            create_or_update_starboard_message sc m n w0
            = (Ok tt, logged LvlError site_upsert (Some DatabaseError)
                        (after_send sc (starboard_embed sb m n) w0))).
  { intros w0 Hf0 Hc0 Hl0.
    apply (upsert_put_fails sc m n g sb w0 Hg).
    - by rewrite Hf0, Hf.
    - by rewrite Hc0.
    - apply (existing_unlinked sc m g w0 Hg); [by rewrite Hf0, Hf|by rewrite Hl0].
    - by rewrite Hf0, Hf.
    - by rewrite Hf0, Hf. }
  split_and!.
  - by apply Hrun.
  - by apply Hrun.
  - done.
  - done.
  - subst w2 w1. unfold logged, after_send. msimpl. by rewrite lookup_insert_eq.
Qed.

(** X11: after a call of [create_or_update_starboard_message] that met
    no failure, the link store read back under the original message
    holds the count that was passed in, an expiry thirty days from now
    and the id of a highlight message; fetching that id from the
    highlight channel gives a message carrying the embed built for this
    count. *)
Theorem upsert_reads_back sc m n g sb w :
  no_faults w →
  message_guild m = Some g →
  configs w !! g = Some sb →
  ∃ w' l h,
    create_or_update_starboard_message sc m n w = (Ok tt, w')
    ∧ get_starboard_message_by_id (message_id m) g w' = (Ok (Some l), w')
    ∧ link_star_count l = n
    ∧ link_message_expires_at l = now w + thirty_days
    ∧ link_message_content l = message_content m
    ∧ link_message_user_id l = user_id (message_author m)
    ∧ link_message_channel_id l = message_channel m
    ∧ get_existing_starboard_message sc m w' = (Ok (Some h), w')
    ∧ message_id h = link_starboard_message_id l
    ∧ data_embed (message_data h) = Some (starboard_embed sb m n).
Proof.
  intros Hnf Hg Hcfg.
  assert (Hfinish : ∀ w' h d,
    create_or_update_starboard_message sc m n w = (Ok tt, w') →
    no_faults w' →
    links w' !! (message_id m, g) = Some (new_link m g n h w) →
    messages w' !! (channel_id sc, h) = Some d →
    data_embed d = Some (starboard_embed sb m n) →
    ∃ w' l h,
      create_or_update_starboard_message sc m n w = (Ok tt, w')
      ∧ get_starboard_message_by_id (message_id m) g w' = (Ok (Some l), w')
      ∧ link_star_count l = n
      ∧ link_message_expires_at l = now w + thirty_days
      ∧ link_message_content l = message_content m
      ∧ link_message_user_id l = user_id (message_author m)
      ∧ link_message_channel_id l = message_channel m
      ∧ get_existing_starboard_message sc m w' = (Ok (Some h), w')
      ∧ message_id h = link_starboard_message_id l
      ∧ data_embed (message_data h) = Some (starboard_embed sb m n)).
  { intros w' h d Hrun Hnf' Hl Hm He.
    exists w', (new_link m g n h w), (message_in sc h d).
    split_and!; try done.
    - unfold get_starboard_message_by_id, bind, gets.
      by rewrite (may_fail_ok _ _ _ (Hnf' _)), Hl.
    - apply (existing_live sc m g w' Hg (new_link m g n h w)); [apply Hnf'|done|].
      by apply fetch_message_found. }
  destruct (links w !! (message_id m, g)) as [l|] eqn:Hl.
  - destruct (messages w !! (channel_id sc, link_starboard_message_id l))
      as [d|] eqn:Hm.
    + eapply Hfinish.
      * by apply (upsert_linked_edits sc m n g sb Hg w l d).
      * intros o. apply Hnf.
      * unfold after_put, after_edit, new_link. msimpl. apply lookup_insert_eq.
      * unfold after_put, after_edit, new_link. msimpl. apply lookup_insert_eq.
      * done.
    + eapply Hfinish.
      * apply (upsert_send sc m n g sb w Hg (Hnf _) Hcfg
                 (logged LvlError site_fetch (Some NotFound) w)); try apply Hnf.
        apply (existing_fetch_fails sc m g w Hg l); [apply Hnf|done|].
        by apply fetch_message_missing.
      * intros o. apply Hnf.
      * unfold after_put, after_send, new_link, logged. msimpl. apply lookup_insert_eq.
      * unfold after_put, after_send, new_link, logged. msimpl. apply lookup_insert_eq.
      * done.
  - eapply Hfinish.
    + apply (upsert_send sc m n g sb w Hg (Hnf _) Hcfg w); try apply Hnf.
      apply (existing_unlinked sc m g w Hg); [apply Hnf|done].
    + intros o. apply Hnf.
    + unfold after_put, after_send, new_link. msimpl. apply lookup_insert_eq.
    + unfold after_put, after_send, new_link. msimpl. apply lookup_insert_eq.
    + done.
Qed.

(** ** Demotion with nothing to demote *)

Lemma demote_nothing sc m g w :
  message_guild m = Some g →
  faults w (OpGetLink (message_id m) g) = false →
  (links w !! (message_id m, g) = None →
   (let* existing := get_existing_starboard_message sc m in
    match existing with
    | Some h => message_delete h
    | None => ret tt
    end) w = (Ok tt, w))
  ∧ (∀ l, links w !! (message_id m, g) = Some l →
          faults w (OpFetchMessage (channel_id sc) (link_starboard_message_id l))
          = false →
          messages w !! (channel_id sc, link_starboard_message_id l) = None →
          (let* existing := get_existing_starboard_message sc m in
           match existing with
           | Some h => message_delete h
           | None => ret tt
           end) w = (Ok tt, logged LvlError site_fetch (Some NotFound) w)).
Proof.
  intros Hg Hgl. split.
  - intros Hl. by rewrite (bind_ok _ _ _ _ _ (existing_unlinked sc m g w Hg Hgl Hl)).
  - intros l Hl Hf Hm.
    by rewrite (bind_ok _ _ _ _ _
                  (existing_fetch_fails sc m g w Hg l NotFound Hgl Hl
                     (fetch_message_missing sc _ w Hf Hm))).
Qed.

(** X12: a remove event whose count is below the threshold, and a clear
    event, for a message that has no link change nothing; for a message
    whose highlight message is already gone (the event was delivered
    twice, or the message was deleted by hand) they log the failed
    fetch and attempt no delete. *)
Theorem demotion_without_highlight p g sb c w m sc :
  truthy_id (payload_guild_id p) = Some g →
  faults w (OpGetConfig g) = false →
  configs w !! g = Some sb →
  as_text_channel (channels w !! payload_channel_id p) = Some c →
  fetch_message c (payload_message_id p) w = (Ok m, w) →
  board sb c w sc →
  faults w (OpGetLink (message_id m) (channel_guild c)) = false →
  (links w !! (message_id m, channel_guild c) = None →
   starboard_on_reaction_clear p w = (Ok tt, w)
   ∧ ∀ n, PartialEmoji_str (payload_emoji p) = starboard_emoji sb →
          count_reactions p sb m w = (Ok n, w) → n < starboard_threshold sb →
          starboard_on_reaction_remove p w = (Ok tt, w))
  ∧ (∀ l, links w !! (message_id m, channel_guild c) = Some l →
          faults w (OpFetchMessage (channel_id sc) (link_starboard_message_id l))
          = false →
          messages w !! (channel_id sc, link_starboard_message_id l) = None →
          starboard_on_reaction_clear p w
          = (Ok tt, logged LvlError site_fetch (Some NotFound) w)
          ∧ ∀ n, PartialEmoji_str (payload_emoji p) = starboard_emoji sb →
                 count_reactions p sb m w = (Ok n, w) → n < starboard_threshold sb →
                 starboard_on_reaction_remove p w
                 = (Ok tt, logged LvlError site_fetch (Some NotFound) w)).
Proof.
  intros Hgid Hst Hcfg Hch Hfetch Hsc Hgl.
  destruct (fetch_message_inv _ _ _ _ _ Hfetch) as (d & Hm & _).
  assert (Hg : message_guild m = Some (channel_guild c)) by (by rewrite Hm).
  destruct (demote_nothing sc m (channel_guild c) w Hg Hgl) as [Hnone Hstale].
  assert (Hclear : ∀ w',
    (let* existing := get_existing_starboard_message sc m in
     match existing with
     | Some h => message_delete h
     | None => ret tt
     end) w = (Ok tt, w') →
    starboard_on_reaction_clear p w = (Ok tt, w')).
  { intros w' Hrun. unfold starboard_on_reaction_clear. rewrite Hgid.
    apply try_except_ok. unfold reaction_clear_try.
    unfold bind at 1, bot_get_channel, gets. rewrite Hch.
    rewrite (bind_ok _ _ _ _ _ Hfetch).
    rewrite (bind_ok _ _ _ _ _ (get_starboard_by_guild_id_ok g w Hst)), Hcfg.
    unfold bind at 1, guild_get_channel, gets. rewrite Hsc. exact Hrun. }
  assert (Hremove : ∀ w' n,
    (let* existing := get_existing_starboard_message sc m in
     match existing with
     | Some h => message_delete h
     | None => ret tt
     end) w = (Ok tt, w') →
    PartialEmoji_str (payload_emoji p) = starboard_emoji sb →
    count_reactions p sb m w = (Ok n, w) → n < starboard_threshold sb →
    starboard_on_reaction_remove p w = (Ok tt, w')).
  { intros w' n Hrun Hem Hcount Hn.
    rewrite (remove_enters p g sb c w) by done.
    apply try_except_ok.
    by rewrite (remove_try_demotes p sb c w m Hfetch n Hcount sc Hsc Hn). }
  split.
  - intros Hl. split; [by apply Hclear, Hnone|].
    intros n. by apply Hremove, Hnone.
  - intros l Hl Hf Hmiss. pose proof (Hstale l Hl Hf Hmiss) as Hrun.
    split; [by apply Hclear|]. intros n. by apply Hremove.
Qed.

(** ** Bounds of the count *)

(** X13: the count the listeners compare with the threshold is 0 when
    the message has no reaction with the configured emoji as a Unicode
    emoji; otherwise it is at most the [count] of that reaction and at
    least that count less the size of the roster, and less 1 at most
    when no user is on the roster twice. *)
Theorem count_reactions_bounds p sb m w n w' :
  count_reactions p sb m w = (Ok n, w') →
  match utils_get_emoji (message_reactions m) (starboard_emoji sb) with
  | None => n = 0
  | Some r =>
      n ≤ reaction_count r
      ∧ reaction_count r - Z.of_nat (length (reaction_users r)) ≤ n
      ∧ (NoDup (user_id <$> reaction_users r) → reaction_count r - 1 ≤ n)
  end.
Proof.
  unfold count_reactions, fetch_reaction_users.
  destruct (utils_get_emoji _ _) as [r|]; mrun; [|by intros [= <- _]].
  destruct (faults w _); [done|]. intros [= <- _].
  rewrite foldl_decrement.
  pose proof (length_filter (λ u, Some (user_id u) = payload_message_author_id p)
                (reaction_users r)) as Hle.
  split_and!; [lia..|].
  intros Hnd. destruct (payload_message_author_id p) as [a|] eqn:Ha.
  - rewrite (occurrences_NoDup a _ Hnd). case_decide; cbn; lia.
  - match goal with
    | |- context [length ?l] => assert (Hz : l = []); [|rewrite Hz; cbn; lia]
    end.
    clear. induction (reaction_users r) as [|u us IH]; [done|].
    rewrite filter_cons. by rewrite decide_False.
Qed.

(** ** The admin commands *)

Lemma ctx_send_ok r s :
  desk_faults s (OpReply r) = false →
  ctx_send r s
  = (Ok tt, {| desk_world := desk_world s; desk_replies := r :: desk_replies s;
               desk_can_send := desk_can_send s; desk_faults := desk_faults s |}).
Proof. intros Hf. unfold ctx_send, cmd_bind, cmd_may_fail. by rewrite Hf. Qed.

Lemma ctx_send_fault r s :
  desk_faults s (OpReply r) = true → ctx_send r s = (Raise HTTPException, s).
Proof. intros Hf. unfold ctx_send, cmd_bind, cmd_may_fail. by rewrite Hf. Qed.

(** A reply tells the invoker something, or fails; it writes nothing. *)
Lemma ctx_send_cases r s res s' :
  ctx_send r s = (res, s') →
  desk_world s' = desk_world s ∧ desk_faults s' = desk_faults s
  ∧ desk_can_send s' = desk_can_send s
  ∧ (desk_replies s' = desk_replies s ∨ desk_replies s' = r :: desk_replies s).
Proof.
  destruct (desk_faults s (OpReply r)) eqn:Hf.
  - rewrite ctx_send_fault by done. intros [= _ <-]. auto.
  - rewrite ctx_send_ok by done. intros [= _ <-]. cbn. auto.
Qed.

Section AdminFacts.
Variable isprintable : string → bool.

(** A rejected [setup_starboard] leaves the world as it was. *)
Lemma setup_rejected ctx channel emoji threshold s r s' :
  setup_starboard isprintable ctx channel emoji threshold s = (r, s') →
  py_len emoji ≠ 1%nat ∨ isprintable emoji = false ∨ threshold < 1
  ∨ desk_can_send s (channel_id channel) = false →
  desk_world s' = desk_world s
  ∧ (desk_replies s' = desk_replies s
     ∨ ∃ told, told ∈ [invalid_emoji; invalid_threshold; permission_denied channel]
               ∧ desk_replies s' = told :: desk_replies s).
Proof.
  unfold setup_starboard. intros Hrun Hbad.
  destruct (ctx_guild ctx) as [g|]; [|injection Hrun as _ <-; auto].
  destruct (bool_decide (py_len emoji ≠ 1%nat) || negb (isprintable emoji)) eqn:He.
  { destruct (ctx_send_cases _ _ _ _ Hrun) as (? & _ & _ & [?|?]); [auto|].
    split; [done|]. right. exists invalid_emoji. split; [repeat constructor|done]. }
  apply orb_false_iff in He as [Hlen Hpr].
  apply bool_decide_eq_false in Hlen. apply negb_false_iff in Hpr.
  destruct (bool_decide (threshold < 1)) eqn:Ht.
  { destruct (ctx_send_cases _ _ _ _ Hrun) as (? & _ & _ & [?|?]); [auto|].
    split; [done|]. right. exists invalid_threshold. split; [repeat constructor|done]. }
  apply bool_decide_eq_false in Ht.
  unfold cmd_bind at 1 in Hrun.
  destruct Hbad as [?|[?|[?|Hcan]]]; [done|congruence|lia|].
  rewrite Hcan in Hrun. cbn [negb] in Hrun.
  destruct (ctx_send_cases _ _ _ _ Hrun) as (? & _ & _ & [?|?]); [auto|].
  split; [done|]. right. exists (permission_denied channel). split; [repeat constructor|done].
Qed.
End AdminFacts.

Lemma py_len_app (s t : string) : py_len (s +:+ t) = (py_len s + py_len t)%nat.
Proof.
  induction s as [|a s IH]; [done|].
  change (String a s +:+ t) with (String a (s +:+ t)).
  cbn [py_len]. rewrite IH. lia.
Qed.

(** The string of a custom emoji is longer than one code point. *)
Lemma custom_emoji_is_long e i :
  emoji_id e = Some i → (2 ≤ py_len (PartialEmoji_str e))%nat.
Proof.
  intros Hid. unfold PartialEmoji_str. rewrite Hid.
  assert (Ha : py_len "<a:" = 3%nat) by reflexivity.
  assert (Hn : py_len "<:" = 2%nat) by reflexivity.
  destruct (emoji_animated e); rewrite !py_len_app, ?Ha, ?Hn; lia.
Qed.

Lemma other_emoji_is_ignored p g sb w :
  truthy_id (payload_guild_id p) = Some g →
  faults w (OpGetConfig g) = false →
  configs w !! g = Some sb →
  PartialEmoji_str (payload_emoji p) ≠ starboard_emoji sb →
  starboard_on_reaction_add p w = (Ok tt, w)
  ∧ starboard_on_reaction_remove p w = (Ok tt, w).
Proof.
  intros Hg Hst Hcfg Hne. split.
  - unfold starboard_on_reaction_add. rewrite Hg.
    destruct (payload_member p) as [member|]; [|done].
    destruct (user_bot member); [done|].
    rewrite (bind_ok _ _ _ _ _ (get_starboard_by_guild_id_ok g w Hst)), Hcfg.
    by rewrite decide_False.
  - unfold starboard_on_reaction_remove. rewrite Hg.
    rewrite (bind_ok _ _ _ _ _ (get_starboard_by_guild_id_ok g w Hst)), Hcfg.
    by rewrite decide_False.
Qed.

(** X14: custom emoji are shut out on both sides.  [setup_starboard]
    given the string of a custom emoji, [<:name:id>] or [<a:name:id>],
    writes no configuration; and on a server whose configured emoji is
    one code point long, as [setup_starboard] demands, a reaction event
    with a custom emoji is ignored by the add and the remove listener. *)
Theorem custom_emoji_are_excluded isprintable e i :
  emoji_id e = Some i →
  (∀ ctx channel threshold s r s',
     setup_starboard isprintable ctx channel (PartialEmoji_str e) threshold s
     = (r, s') →
     desk_world s' = desk_world s)
  ∧ (∀ p g sb w,
       payload_emoji p = e →
       truthy_id (payload_guild_id p) = Some g →
       faults w (OpGetConfig g) = false →
       configs w !! g = Some sb →
       py_len (starboard_emoji sb) = 1%nat →
       starboard_on_reaction_add p w = (Ok tt, w)
       ∧ starboard_on_reaction_remove p w = (Ok tt, w)).
Proof.
  intros Hid. pose proof (custom_emoji_is_long e i Hid) as Hlong. split.
  - intros ctx channel threshold s r s' Hrun.
    apply (setup_rejected isprintable _ _ _ _ _ _ _ Hrun). left. lia.
  - intros p g sb w <- Hg Hst Hcfg Hone.
    apply (other_emoji_is_ignored p g sb w Hg Hst Hcfg).
    intros Heq. rewrite Heq in Hlong. lia.
Qed.

(** X15: [setup_starboard] writes nothing when it rejects: with an
    emoji that is not exactly one printable code point, a threshold
    below 1, or a channel the bot may not send to, the cog's world is
    as before, and the invoker is told nothing or exactly one of the
    three error embeds. *)
Theorem setup_rejects_before_writing isprintable ctx channel emoji threshold s r s' :
  setup_starboard isprintable ctx channel emoji threshold s = (r, s') →
  py_len emoji ≠ 1%nat ∨ isprintable emoji = false ∨ threshold < 1
  ∨ desk_can_send s (channel_id channel) = false →
  desk_world s' = desk_world s
  ∧ (desk_replies s' = desk_replies s
     ∨ ∃ told, told ∈ [invalid_emoji; invalid_threshold; permission_denied channel]
               ∧ desk_replies s' = told :: desk_replies s).
Proof. apply setup_rejected. Qed.

Section SetupAccepted.
Variable isprintable : string → bool.
Variables (ctx : Context) (channel : Channel) (emoji : string) (threshold g : Z).
Variable s : Desk.
Hypothesis Hguild : ctx_guild ctx = Some g.
Hypothesis Hlen : py_len emoji = 1%nat.
Hypothesis Hprintable : isprintable emoji = true.
Hypothesis Hthreshold : 1 ≤ threshold.
Hypothesis Hcan : desk_can_send s (channel_id channel) = true.

(** Past its checks the command is its [try] block. *)
Lemma setup_enters :
  setup_starboard isprintable ctx channel emoji threshold s
  = cmd_try
      (cmd_bind
         (create_or_update_starboard g (channel_id channel) emoji threshold)
         (λ _, ctx_send (starboard_setup channel emoji threshold)))
      (λ e, cmd_bind (on_world (logger_error site_setup (Some e)))
              (λ _, ctx_send (setup_failed e))) s.
Proof.
  unfold setup_starboard. rewrite Hguild.
  rewrite bool_decide_eq_false_2 by (by intros []).
  rewrite Hprintable. cbn [negb orb].
  rewrite bool_decide_eq_false_2 by lia.
  unfold cmd_bind at 1. by rewrite Hcan.
Qed.
End SetupAccepted.

(** X16: [setup_starboard] with one printable code point, a threshold
    of at least 1 and a channel the bot may send to, when the store and
    the reply work, writes the configuration of the server, tells the
    invoker so, and touches neither another server's configuration nor
    links, messages or log; the listeners' lookup then finds what was
    written. *)
Theorem setup_writes_configuration isprintable ctx channel emoji threshold g s :
  ctx_guild ctx = Some g →
  py_len emoji = 1%nat →
  isprintable emoji = true →
  1 ≤ threshold →
  desk_can_send s (channel_id channel) = true →
  desk_faults s (OpSetConfig g) = false →
  desk_faults s (OpReply (starboard_setup channel emoji threshold)) = false →
  ∃ s',
    setup_starboard isprintable ctx channel emoji threshold s = (Ok tt, s')
    ∧ desk_replies s' = starboard_setup channel emoji threshold :: desk_replies s
    ∧ desk_world s'
      = set_configs
          (<[g := configuration_of g channel emoji threshold]>
             (configs (desk_world s))) (desk_world s)
    ∧ (∀ g', g' ≠ g →
             configs (desk_world s') !! g' = configs (desk_world s) !! g')
    ∧ (faults (desk_world s) (OpGetConfig g) = false →
       get_starboard_by_guild_id g (desk_world s')
       = (Ok (Some (configuration_of g channel emoji threshold)), desk_world s')).
Proof.
  intros Hg Hlen Hpr Ht Hcan Hset Hreply.
  rewrite (setup_enters isprintable ctx channel emoji threshold g s)
    by assumption.
  eexists. split.
  { unfold cmd_try, cmd_bind at 1, create_or_update_starboard, cmd_bind,
      cmd_may_fail. rewrite Hset. rewrite ctx_send_ok by exact Hreply. reflexivity. }
  cbn. split_and!; try done.
  - intros g' Hne. by rewrite lookup_insert_ne.
  - intros Hst.
    rewrite get_starboard_by_guild_id_ok by exact Hst.
    cbn. by rewrite lookup_insert_eq.
Qed.

(** X17: when [setup_starboard] passed its checks, a failure is caught,
    logged and reported as an error text.  If the store failed, no
    configuration was written; if only the confirmation could not be
    sent, the invoker is told that an error occurred although the
    configuration is in the store. *)
Theorem setup_reports_failures isprintable ctx channel emoji threshold g s :
  ctx_guild ctx = Some g →
  py_len emoji = 1%nat →
  isprintable emoji = true →
  1 ≤ threshold →
  desk_can_send s (channel_id channel) = true →
  (desk_faults s (OpSetConfig g) = true →
   desk_faults s (OpReply (setup_failed DatabaseError)) = false →
   ∃ s',
     setup_starboard isprintable ctx channel emoji threshold s = (Ok tt, s')
     ∧ desk_replies s' = setup_failed DatabaseError :: desk_replies s
     ∧ desk_world s'
       = logged LvlError site_setup (Some DatabaseError) (desk_world s))
  ∧ (desk_faults s (OpSetConfig g) = false →
     desk_faults s (OpReply (starboard_setup channel emoji threshold)) = true →
     desk_faults s (OpReply (setup_failed HTTPException)) = false →
     ∃ s',
       setup_starboard isprintable ctx channel emoji threshold s = (Ok tt, s')
       ∧ desk_replies s' = setup_failed HTTPException :: desk_replies s
       ∧ configs (desk_world s') !! g
         = Some (configuration_of g channel emoji threshold)).
Proof.
  intros Hg Hlen Hpr Ht Hcan.
  rewrite (setup_enters isprintable ctx channel emoji threshold g s)
    by assumption.
  split.
  - intros Hset Hreply. eexists. split.
    { unfold cmd_try, cmd_bind at 1, create_or_update_starboard, cmd_bind at 1,
        cmd_may_fail. rewrite Hset.
      unfold cmd_bind, on_world. cbn.
      rewrite ctx_send_ok by exact Hreply. reflexivity. }
    by cbn.
  - intros Hset Hconfirm Hreply. eexists. split.
    { unfold cmd_try, cmd_bind at 1, create_or_update_starboard, cmd_bind at 1,
        cmd_may_fail. rewrite Hset.
      rewrite ctx_send_fault by exact Hconfirm.
      unfold cmd_bind, on_world. cbn.
      rewrite ctx_send_ok by exact Hreply. reflexivity. }
    cbn. split; [done|]. by rewrite lookup_insert_eq.
Qed.

Lemma get_starboard_by_guild_id_ok' {B} g w (k : option StarboardConfig → M B) :
  faults w (OpGetConfig g) = false →
  (let* starboard := get_starboard_by_guild_id g in k starboard) w
  = k (configs w !! g) w.
Proof. intros Hst. by rewrite (bind_ok _ _ _ _ _ (get_starboard_by_guild_id_ok g w Hst)). Qed.

(** X18: [remove_starboard], when the store and the reply work, leaves
    the server without configuration and other servers' configurations
    alone, tells the invoker whether there was one, and from then on
    the add and remove listeners ignore every event of that server. *)
Theorem remove_starboard_unconfigures ctx g s :
  ctx_guild ctx = Some g →
  (∀ o, desk_faults s o = false) →
  ∃ s',
    remove_starboard ctx s = (Ok tt, s')
    ∧ desk_replies s'
      = (if decide (is_Some (configs (desk_world s) !! g))
         then starboard_removed else no_starboard_found) :: desk_replies s
    ∧ configs (desk_world s') !! g = None
    ∧ (∀ g', g' ≠ g →
             configs (desk_world s') !! g' = configs (desk_world s) !! g')
    ∧ links (desk_world s') = links (desk_world s)
    ∧ messages (desk_world s') = messages (desk_world s)
    ∧ ∀ p, truthy_id (payload_guild_id p) = Some g →
           faults (desk_world s) (OpGetConfig g) = false →
           starboard_on_reaction_add p (desk_world s') = (Ok tt, desk_world s')
           ∧ starboard_on_reaction_remove p (desk_world s')
             = (Ok tt, desk_world s').
Proof.
  intros Hg Hnf. unfold remove_starboard. rewrite Hg.
  eexists. split.
  { unfold cmd_try, cmd_bind at 1, delete_starboard_by_guild_id, cmd_bind at 1,
      cmd_may_fail. rewrite Hnf.
    rewrite ctx_send_ok by apply Hnf. reflexivity. }
  cbn. split_and!; try done.
  - destruct (decide (is_Some (configs (desk_world s) !! g))) as [H|H].
    + by rewrite bool_decide_eq_true_2.
    + by rewrite bool_decide_eq_false_2.
  - apply lookup_delete_eq.
  - intros g' Hne. by rewrite lookup_delete_ne.
  - intros p Hgid Hst. split.
    + unfold starboard_on_reaction_add. rewrite Hgid.
      destruct (payload_member p) as [member|]; [|done].
      destruct (user_bot member); [done|].
      rewrite get_starboard_by_guild_id_ok' by exact Hst.
      cbn. by rewrite lookup_delete_eq.
    + unfold starboard_on_reaction_remove. rewrite Hgid.
      rewrite get_starboard_by_guild_id_ok' by exact Hst.
      cbn. by rewrite lookup_delete_eq.
Qed.

(** ** The invariant of the configuration store *)

Lemma setup_configs isprintable ctx channel emoji threshold s r s' :
  setup_starboard isprintable ctx channel emoji threshold s = (r, s') →
  configs (desk_world s') = configs (desk_world s)
  ∨ (accepted isprintable (configuration_of 0 channel emoji threshold)
     ∧ ∃ g, ctx_guild ctx = Some g
            ∧ configs (desk_world s')
              = <[g := configuration_of g channel emoji threshold]>
                  (configs (desk_world s))).
Proof.
  intros Hrun.
  destruct (decide (py_len emoji = 1%nat)) as [Hlen|Hlen].
  2:{ left. by destruct (setup_rejected isprintable _ _ _ _ _ _ _ Hrun) as [-> _]; auto. }
  destruct (isprintable emoji) eqn:Hpr.
  2:{ left. by destruct (setup_rejected isprintable _ _ _ _ _ _ _ Hrun) as [-> _]; auto. }
  destruct (decide (threshold < 1)) as [Ht|Ht].
  { left. by destruct (setup_rejected isprintable _ _ _ _ _ _ _ Hrun) as [-> _]; auto. }
  destruct (desk_can_send s (channel_id channel)) eqn:Hcan.
  2:{ left. by destruct (setup_rejected isprintable _ _ _ _ _ _ _ Hrun) as [-> _]; auto. }
  destruct (ctx_guild ctx) as [g|] eqn:Hg.
  2:{ left. unfold setup_starboard in Hrun. rewrite Hg in Hrun. by injection Hrun as _ <-. }
  rewrite (setup_enters isprintable ctx channel emoji threshold g s) in Hrun
    by (assumption || lia).
  unfold cmd_try, cmd_bind at 1, create_or_update_starboard, cmd_bind at 1,
    cmd_may_fail in Hrun.
  destruct (desk_faults s (OpSetConfig g)).
  - left. unfold cmd_bind, on_world in Hrun. cbn in Hrun.
    match type of Hrun with
    | ctx_send ?r0 ?s0 = _ => destruct (ctx_send_cases r0 s0 _ _ Hrun) as [-> _]
    end. done.
  - right. split; [split_and!; [done..|cbn; lia]|]. exists g. split; [done|].
    match type of Hrun with
    | context [ctx_send ?r0 ?s0] =>
        destruct (ctx_send r0 s0) as [[[]|e] s1] eqn:Hsend;
        destruct (ctx_send_cases r0 s0 _ _ Hsend) as (Hw & _)
    end.
    + injection Hrun as _ <-. by rewrite Hw.
    + unfold cmd_bind, on_world in Hrun. cbn in Hrun.
      match type of Hrun with
      | ctx_send ?r0 ?s0 = _ => destruct (ctx_send_cases r0 s0 _ _ Hrun) as [-> _]
      end. cbn. by rewrite Hw.
Qed.

Lemma remove_configs ctx s r s' :
  remove_starboard ctx s = (r, s') →
  configs (desk_world s') = configs (desk_world s)
  ∨ ∃ g, configs (desk_world s') = delete g (configs (desk_world s)).
Proof.
  unfold remove_starboard. intros Hrun.
  destruct (ctx_guild ctx) as [g|]; [|left; by injection Hrun as _ <-].
  unfold cmd_try, cmd_bind at 1, delete_starboard_by_guild_id, cmd_bind at 1,
    cmd_may_fail in Hrun.
  destruct (desk_faults s (OpDeleteConfig g)).
  - left. unfold cmd_bind, on_world in Hrun. cbn in Hrun.
    match type of Hrun with
    | ctx_send ?r0 ?s0 = _ => destruct (ctx_send_cases r0 s0 _ _ Hrun) as [-> _]
    end. done.
  - right. exists g.
    match type of Hrun with
    | context [ctx_send ?r0 ?s0] =>
        destruct (ctx_send r0 s0) as [[[]|e] s1] eqn:Hsend;
        destruct (ctx_send_cases r0 s0 _ _ Hsend) as (Hw & _)
    end.
    + injection Hrun as _ <-. by rewrite Hw.
    + unfold cmd_bind, on_world in Hrun. cbn in Hrun.
      match type of Hrun with
      | ctx_send ?r0 ?s0 = _ => destruct (ctx_send_cases r0 s0 _ _ Hrun) as [-> _]
      end. cbn. by rewrite Hw.
Qed.

(** X19: every entry point of the cog keeps the configuration store
    well configured: if each configuration sits under its own server
    with an emoji of one printable code point and a threshold of at
    least 1, the same holds after [setup_starboard] and
    [remove_starboard] on any arguments and under any failure, and
    after each of the three listeners. *)
Theorem store_stays_well_configured isprintable w :
  well_configured isprintable w →
  (∀ ctx channel emoji threshold s r s',
     desk_world s = w →
     setup_starboard isprintable ctx channel emoji threshold s = (r, s')
     ∨ remove_starboard ctx s = (r, s') →
     well_configured isprintable (desk_world s'))
  ∧ (∀ p r w',
       starboard_on_reaction_add p w = (r, w')
       ∨ starboard_on_reaction_remove p w = (r, w')
       ∨ starboard_on_reaction_clear p w = (r, w') →
       well_configured isprintable w').
Proof.
  intros Hwf. split.
  - intros ctx channel emoji threshold s r s' <- [Hrun|Hrun].
    + destruct (setup_configs _ _ _ _ _ _ _ _ Hrun)
        as [Heq|[(Hlen & Hpr & Ht) (g & _ & Heq)]];
        intros g' sb; rewrite Heq; [apply Hwf|].
      destruct (decide (g = g')) as [<-|Hne].
      * rewrite lookup_insert_eq. intros [= <-]. by split.
      * rewrite lookup_insert_ne by done. apply Hwf.
    + destruct (remove_configs _ _ _ _ Hrun) as [Heq|[g Heq]];
        intros g' sb; rewrite Heq; [apply Hwf|].
      intros Hl. apply lookup_delete_Some in Hl as [_ Hl]. by apply Hwf.
  - assert (Hlog : allows_log same_setting) by done.
    assert (Hsend : ∀ c, allows_send same_setting c) by done.
    assert (Hedit : ∀ c, allows_edit same_setting c) by done.
    assert (Hput : ∀ k, allows_put same_setting k) by done.
    assert (Hdel : allows_delete same_setting) by done.
    intros p r w' Hrun.
    assert (Hcfg : configs w' = configs w).
    { destruct Hrun as [Hrun|[Hrun|Hrun]].
      - by destruct (respects_add same_setting p Hlog Hsend Hedit Hput _ _ _ Hrun).
      - by destruct (respects_remove same_setting p Hlog Hsend Hedit Hput Hdel
                       _ _ _ Hrun).
      - by destruct (respects_clear same_setting p Hlog Hdel _ _ _ Hrun). }
    intros g sb. rewrite Hcfg. apply Hwf.
Qed.

(** ** These properties on the concrete server *)

Import Office.

Lemma configuration_is_read_only_witness :
  configs (starboard_on_reaction_add (added carol 10)
             (unlinked (starred [bob; carol; dave]) healthy)).2
  = configs (unlinked (starred [bob; carol; dave]) healthy)
  ∧ channels (starboard_on_reaction_add (added carol 10)
                (unlinked (starred [bob; carol; dave]) healthy)).2
    = channels (unlinked (starred [bob; carol; dave]) healthy).
Proof.
  apply (configuration_is_read_only (added carol 10) highlights
           (original (starred [bob; carol; dave])) 3
           (unlinked (starred [bob; carol; dave]) healthy)
           (starboard_on_reaction_add (added carol 10)
              (unlinked (starred [bob; carol; dave]) healthy)).1).
  left. apply surjective_pairing.
Defined.

Lemma promotion_never_deletes_witness :
  is_Some (messages (unlinked (starred [bob; carol; dave]) healthy) !! (10, 100))
  ∧ is_Some (messages (starboard_on_reaction_add (added carol 10)
                         (unlinked (starred [bob; carol; dave]) healthy)).2
             !! (10, 100)).
Proof.
  assert (H : is_Some (messages (unlinked (starred [bob; carol; dave]) healthy)
                       !! (10, 100))) by (eexists; by vm_compute).
  split; [exact H|].
  apply (promotion_never_deletes (added carol 10) highlights
           (original (starred [bob; carol; dave])) 3
           (unlinked (starred [bob; carol; dave]) healthy)
           (starboard_on_reaction_add (added carol 10)
              (unlinked (starred [bob; carol; dave]) healthy)).1);
    [left; apply surjective_pairing|exact H].
Defined.

Lemma link_rows_are_never_removed_witness :
  is_Some (links (linked (starred [bob; carol]) healthy) !! (100, 1))
  ∧ is_Some (links (starboard_on_reaction_remove (removed dave 10)
                      (linked (starred [bob; carol]) healthy)).2 !! (100, 1)).
Proof.
  assert (H : is_Some (links (linked (starred [bob; carol]) healthy) !! (100, 1)))
    by (eexists; by vm_compute).
  split; [exact H|].
  apply (link_rows_are_never_removed (removed dave 10)
           (linked (starred [bob; carol]) healthy)
           (starboard_on_reaction_remove (removed dave 10)
              (linked (starred [bob; carol]) healthy)).1);
    [right; left; apply surjective_pairing|exact H].
Defined.

Lemma clear_only_removes_witness :
  messages (starboard_on_reaction_clear (removed dave 10) (linked bare healthy)).2
  ⊆ messages (linked bare healthy)
  ∧ links (starboard_on_reaction_clear (removed dave 10) (linked bare healthy)).2
    = links (linked bare healthy)
  ∧ next_id (starboard_on_reaction_clear (removed dave 10) (linked bare healthy)).2
    = next_id (linked bare healthy).
Proof.
  apply (clear_only_removes (removed dave 10) (linked bare healthy)
           (starboard_on_reaction_clear (removed dave 10) (linked bare healthy)).1).
  apply surjective_pairing.
Defined.

Lemma upsert_is_local_witness :
  messages (create_or_update_starboard_message highlights
              (original (starred [bob; carol; dave])) 3
              (unlinked (starred [bob; carol; dave]) healthy)).2 !! (10, 100)
  = messages (unlinked (starred [bob; carol; dave]) healthy) !! (10, 100).
Proof.
  destruct (upsert_is_local highlights (original (starred [bob; carol; dave])) 3
              (unlinked (starred [bob; carol; dave]) healthy)
              (create_or_update_starboard_message highlights
                 (original (starred [bob; carol; dave])) 3
                 (unlinked (starred [bob; carol; dave]) healthy)).1
              (create_or_update_starboard_message highlights
                 (original (starred [bob; carol; dave])) 3
                 (unlinked (starred [bob; carol; dave]) healthy)).2)
    as (_ & _ & Hm); [apply surjective_pairing|].
  apply Hm. by vm_compute.
Defined.

Lemma listeners_raise_only_before_acting_witness :
  starboard_on_reaction_add (added carol 30) (unlinked (starred [bob; carol]) healthy)
  = (Raise AssertionError, unlinked (starred [bob; carol]) healthy)
  ∧ as_text_channel
      (channels (unlinked (starred [bob; carol]) healthy)
       !! payload_channel_id (added carol 30)) = None.
Proof.
  assert (Hrun : starboard_on_reaction_add (added carol 30)
                   (unlinked (starred [bob; carol]) healthy)
                 = (Raise AssertionError, unlinked (starred [bob; carol]) healthy))
    by (by vm_compute).
  split; [exact Hrun|].
  destruct (listeners_raise_only_before_acting (added carol 30)
              (unlinked (starred [bob; carol]) healthy)) as [_ H].
  destruct (H AssertionError _ (or_introl Hrun)) as [_ [[_ Hc]|[He _]]];
    [exact Hc|discriminate He].
Defined.

Lemma helpers_contain_their_failures_witness :
  get_existing_starboard_message highlights direct_message (linked bare healthy)
  = (Raise AssertionError, linked bare healthy)
  ∧ message_guild direct_message = None.
Proof.
  assert (Hrun : get_existing_starboard_message highlights direct_message
                   (linked bare healthy)
                 = (Raise AssertionError, linked bare healthy)) by reflexivity.
  split; [exact Hrun|].
  destruct (helpers_contain_their_failures highlights direct_message 3
              (linked bare healthy)) as [_ H].
  exact (proj1 (H _ _ Hrun)).
Defined.

Lemma upsert_without_configuration_witness :
  create_or_update_starboard_message highlights
    (message_in elsewhere 100 bare) 3 (linked bare healthy)
  = (Ok tt, linked bare healthy).
Proof.
  destruct (upsert_without_configuration highlights (message_in elsewhere 100 bare)
              3 (linked bare healthy)) as (_ & H & _).
  apply (H 2); by vm_compute.
Defined.

Lemma upsert_aborts_before_link_witness :
  create_or_update_starboard_message highlights
    (original (starred [bob; carol; dave])) 3
    (unlinked (starred [bob; carol; dave]) send_down)
  = (Ok tt, logged LvlError site_upsert (Some HTTPException)
              (unlinked (starred [bob; carol; dave]) send_down)).
Proof.
  destruct (upsert_aborts_before_link highlights
              (original (starred [bob; carol; dave])) 3 1 config
              (unlinked (starred [bob; carol; dave]) send_down))
    as (H & _); [by vm_compute..|].
  apply H; by vm_compute.
Defined.

Lemma unwritten_link_duplicates_witness :
  ∃ w1 w2,
    create_or_update_starboard_message highlights
      (original (starred [bob; carol; dave])) 3
      (unlinked (starred [bob; carol; dave]) put_down) = (Ok tt, w1)
    ∧ create_or_update_starboard_message highlights
        (original (starred [bob; carol; dave])) 3 w1 = (Ok tt, w2)
    ∧ sends (journal w2) = [(20, 501); (20, 500)].
Proof.
  destruct (unwritten_link_duplicates highlights
              (original (starred [bob; carol; dave])) 3 1 config
              (unlinked (starred [bob; carol; dave]) put_down))
    as (H1 & H2 & _ & H3 & _).
  - reflexivity.
  - by vm_compute.
  - by vm_compute.
  - by intros [].
  - eexists _, _. split; [exact H1|]. split; [exact H2|exact H3].
Defined.

Lemma upsert_reads_back_witness :
  ∃ w' l,
    create_or_update_starboard_message highlights
      (original (starred [bob; carol; dave])) 3
      (unlinked (starred [bob; carol; dave]) healthy) = (Ok tt, w')
    ∧ get_starboard_message_by_id 100 1 w' = (Ok (Some l), w')
    ∧ link_star_count l = 3.
Proof.
  destruct (upsert_reads_back highlights (original (starred [bob; carol; dave]))
              3 1 config (unlinked (starred [bob; carol; dave]) healthy))
    as (w' & l & h & H1 & H2 & H3 & _).
  - by intros o.
  - reflexivity.
  - by vm_compute.
  - exists w', l. split; [exact H1|]. split; [exact H2|exact H3].
Defined.

Lemma demotion_without_highlight_witness :
  starboard_on_reaction_remove (removed dave 10)
    (unlinked (starred [bob; carol]) healthy)
  = (Ok tt, unlinked (starred [bob; carol]) healthy).
Proof.
  destruct (demotion_without_highlight (removed dave 10) 1 config general
              (unlinked (starred [bob; carol]) healthy)
              (original (starred [bob; carol])) highlights)
    as (H & _); [by vm_compute..|].
  destruct H as [_ H]; [by vm_compute|].
  apply (H 2); by vm_compute.
Defined.

Lemma count_reactions_bounds_witness :
  count_reactions (added carol 10) config (original (starred [alice; bob; carol]))
    (linked (starred [alice; bob; carol]) healthy)
  = (Ok 2, linked (starred [alice; bob; carol]) healthy)
  ∧ 2 ≤ 3.
Proof.
  assert (Hrun : count_reactions (added carol 10) config
                   (original (starred [alice; bob; carol]))
                   (linked (starred [alice; bob; carol]) healthy)
                 = (Ok 2, linked (starred [alice; bob; carol]) healthy))
    by (by vm_compute).
  split; [exact Hrun|].
  exact (proj1 (count_reactions_bounds _ _ _ _ _ _ Hrun)).
Defined.

Lemma custom_emoji_are_excluded_witness :
  emoji_id penguin = Some 77
  ∧ starboard_on_reaction_add (with_member (Some carol)
       {| payload_guild_id := Some 1; payload_channel_id := 10;
          payload_message_id := 100; payload_user_id := 9;
          payload_member := None; payload_emoji := penguin;
          payload_message_author_id := Some 7 |})
      (unlinked (starred [bob; carol; dave]) healthy)
    = (Ok tt, unlinked (starred [bob; carol; dave]) healthy).
Proof.
  split; [reflexivity|].
  destruct (custom_emoji_are_excluded knows_star penguin 77 eq_refl) as [_ H].
  apply (H _ 1 config); by vm_compute.
Defined.

Lemma setup_rejects_before_writing_witness :
  desk_world (setup_starboard knows_star admin highlights star 0
                (desk (unlinked bare healthy))).2
  = unlinked bare healthy.
Proof.
  apply (setup_rejects_before_writing knows_star admin highlights star 0
           (desk (unlinked bare healthy))
           (setup_starboard knows_star admin highlights star 0
              (desk (unlinked bare healthy))).1);
    [apply surjective_pairing|].
  right. right. left. lia.
Defined.

Lemma setup_writes_configuration_witness :
  ∃ s',
    setup_starboard knows_star admin highlights star 5
      (desk (unlinked bare healthy)) = (Ok tt, s')
    ∧ get_starboard_by_guild_id 1 (desk_world s')
      = (Ok (Some (configuration_of 1 highlights star 5)), desk_world s').
Proof.
  destruct (setup_writes_configuration knows_star admin highlights star 5 1
              (desk (unlinked bare healthy)))
    as (s' & H1 & _ & _ & _ & H2); [by vm_compute..|].
  exists s'. split; [exact H1|]. apply H2. reflexivity.
Defined.

Lemma setup_reports_failures_witness :
  ∃ s',
    setup_starboard knows_star admin highlights star 5
      (store_down (unlinked bare healthy)) = (Ok tt, s')
    ∧ desk_replies s' = [setup_failed DatabaseError].
Proof.
  destruct (setup_reports_failures knows_star admin highlights star 5 1
              (store_down (unlinked bare healthy)))
    as (H & _); [by vm_compute..|].
  destruct H as (s' & H1 & H2 & _); [reflexivity..|].
  exists s'. split; [exact H1|exact H2].
Defined.

Lemma remove_starboard_unconfigures_witness :
  ∃ s',
    remove_starboard admin (desk (linked bare healthy)) = (Ok tt, s')
    ∧ desk_replies s' = [starboard_removed]
    ∧ configs (desk_world s') !! 1 = None.
Proof.
  destruct (remove_starboard_unconfigures admin 1 (desk (linked bare healthy)))
    as (s' & H1 & H2 & H3 & _); [reflexivity|by intros o|].
  exists s'. split; [exact H1|]. split; [|exact H3].
  rewrite H2. by vm_compute.
Defined.

Lemma store_stays_well_configured_witness :
  well_configured knows_star (unlinked bare healthy)
  ∧ well_configured knows_star
      (desk_world (setup_starboard knows_star admin highlights star 5
                     (desk (unlinked bare healthy))).2).
Proof.
  assert (Hwf : well_configured knows_star (unlinked bare healthy)).
  { intros g sb Hl. unfold unlinked in Hl. cbn [configs] in Hl.
    apply lookup_singleton_Some in Hl as [<- <-].
    split; [reflexivity|]. split_and!; [reflexivity..|]. by vm_compute. }
  split; [exact Hwf|].
  destruct (store_stays_well_configured knows_star _ Hwf) as [H _].
  apply (H admin highlights star 5 (desk (unlinked bare healthy))
           (setup_starboard knows_star admin highlights star 5
              (desk (unlinked bare healthy))).1); [reflexivity|].
  left. apply surjective_pairing.
Defined.
